(** * DockerEnvironment: a shallow embedding of
      [src/minisweagent/environments/docker.py]

    The module drives a container runtime through child processes.  The
    embedding keeps the session object ([self.config], [self.container_id])
    as an explicit record, threads it through a small state-and-exception
    monad, and records every observable effect (logger calls, synchronous
    [subprocess.run] calls, detached [subprocess.Popen] calls) in an event
    trace.  Everything that lives outside the Python process (what a child
    process answers, whether [subprocess.Popen] can start its shell, what
    [uuid.uuid4] draws, what [os.environ] holds) is an oracle over an
    abstract [World], so every theorem holds for every behaviour of the
    host and of the container runtime.

    Python [str] values are sequences of Unicode code points, modelled as
    [list N]; [py "..."] writes an ASCII literal. *)

From Stdlib Require Import ZArith NArith List String Ascii Bool Lia.
From stdpp Require Import gmap list fin_maps.

Local Open Scope Z_scope.

(** ** Python strings *)

Abbreviation str := (list N).

Definition py (s : string) : str := map N_of_ascii (list_ascii_of_string s).
Arguments py : simpl never.

(** [str.isspace] on one code point (CPython's [_PyUnicode_IsWhitespace]). *)
Definition isspace (c : N) : bool :=
  ((9 <=? c) && (c <=? 13) || (28 <=? c) && (c <=? 32)
   || (c =? 133) || (c =? 160) || (c =? 5760)
   || (8192 <=? c) && (c <=? 8202)
   || (c =? 8232) || (c =? 8233) || (c =? 8239) || (c =? 8287)
   || (c =? 12288))%N.

(** [s.lstrip(chars)] for a predicate describing [chars]. *)
Fixpoint lstrip_by (p : N -> bool) (s : str) : str :=
  match s with
  | c :: r => if p c then lstrip_by p r else s
  | [] => []
  end.

Definition rstrip_by (p : N -> bool) (s : str) : str :=
  rev (lstrip_by p (rev s)).

(** [s.strip()] *)
Definition strip (s : str) : str := rstrip_by isspace (lstrip_by isspace s).

(** [s.lstrip('/')] *)
Definition lstrip_slash (s : str) : str := lstrip_by (N.eqb 47) s.

(** [s.split()]: maximal runs of non-whitespace, no empty strings.
    [cur] is the run being read, most recent code point first. *)
Fixpoint split_from (cur : str) (s : str) : list str :=
  match s with
  | [] => match cur with [] => [] | _ => [rev cur] end
  | c :: r =>
      if isspace c
      then match cur with
           | [] => split_from [] r
           | _ => rev cur :: split_from [] r
           end
      else split_from (c :: cur) r
  end.

Definition split (s : str) : list str := split_from [] s.

(** [s.replace(old, new)] for a one-code-point [old]. *)
Definition replace1 (old : N) (new : str) (s : str) : str :=
  flat_map (fun c => if (c =? old)%N then new else [c]) s.

(** [sep.join(parts)] *)
Fixpoint join (sep : str) (parts : list str) : str :=
  match parts with
  | [] => []
  | [p] => p
  | p :: rest => p ++ sep ++ join sep rest
  end.

(** [shlex.quote]: a string is left alone when every code point is in
    [[A-Za-z0-9_@%+=:,./-]]; otherwise it is put in single quotes, each
    single quote inside written as quote, double-quoted quote, quote. *)
Definition shlex_safe (c : N) : bool :=
  ((48 <=? c) && (c <=? 57) || (65 <=? c) && (c <=? 90)
   || (97 <=? c) && (c <=? 122) || (c =? 95)
   || (c =? 64) || (c =? 37) || (c =? 43) || (c =? 61) || (c =? 58)
   || (c =? 44) || (c =? 46) || (c =? 47) || (c =? 45))%N.

Definition shlex_quote (s : str) : str :=
  match s with
  | [] => [39; 39]%N
  | _ => if forallb shlex_safe s then s
         else [39%N] ++ replace1 39 [39; 34; 39; 34; 39]%N s ++ [39%N]
  end.

Definition shlex_join (cmd : list str) : str :=
  join (py " ") (map shlex_quote cmd).

(** ** Configuration and session *)

(** [DockerEnvironmentConfig].  [env] is a Python dict: insertion-ordered,
    keys unique; the order is what [execute] iterates in, so it is kept as
    a list of items. *)
Record DockerEnvironmentConfig := {
  image : str;
  cwd : str;
  env : list (str * str);
  forward_env : list str;
  timeout : Z;
  executable : str;
  run_args : list str;
  container_timeout : str;
  pull_timeout : Z;
  cfg_container_id : option str;
}.

(** The instance attributes of [DockerEnvironment] that the methods use. *)
Record DockerEnvironment := {
  config : DockerEnvironmentConfig;
  container_id : option str;
}.

Definition set_container_id (v : option str) (self : DockerEnvironment)
  : DockerEnvironment :=
  {| config := config self; container_id := v |}.

(** ** Exceptions, child processes, events *)

#[warnings="-register-all"]
Inductive exn :=
| CalledProcessError (returncode : Z) (cmd : list str) (stdout stderr : str)
| TimeoutExpired (cmd : list str) (timeout : Z)
| OSError (msg : str)
| RuntimeError (msg : str) (cause : option exn)
| AssertionError (msg : str)
| UnpackError (expected got : nat).

(** The two families of error that [subprocess.run] itself raises for a
    child that ran: non-zero exit under [check=True], and timeout. *)
Definition is_subprocess_error (e : exn) : bool :=
  match e with
  | CalledProcessError _ _ _ _ | TimeoutExpired _ _ => true
  | _ => false
  end.

Definition is_RuntimeError (e : exn) : bool :=
  match e with RuntimeError _ _ => true | _ => false end.

(** One [subprocess.run] call: the argument vector and the keyword
    arguments on which the three call sites differ. *)
Record run_call := {
  args : list str;
  run_timeout : Z;
  check : bool;
  stderr_to_stdout : bool;
}.

(** What the operating system reports for the child. With
    [stderr_to_stdout] the first component is the combined stream. *)
Inductive child :=
| Exited (out err : str) (returncode : Z)
| Expired
| NotLaunched (msg : str).

(** What [subprocess.Popen] reports to its caller: the shell was
    started, or the call raised (the shell could not be started, or the
    command was refused). *)
Inductive spawn :=
| Spawned
| SpawnRaised (e : exn).

Record CompletedProcess := {
  cp_stdout : str;
  cp_stderr : option str;
  cp_returncode : Z;
}.

Inductive loglevel := DEBUG | INFO | ERROR.

Inductive event :=
| EvLog (level : loglevel) (msg : str)
| EvRun (c : run_call)
| EvPopen (shell_cmd : str).

Definition is_child_process (e : event) : bool :=
  match e with EvLog _ _ => false | _ => true end.

Definition is_run (e : event) : bool :=
  match e with EvRun _ => true | _ => false end.

(** Values of the result dictionary of [execute] ([dict[str, Any]]). *)
Inductive pyval := VStr (s : str) | VInt (n : Z).

Inductive result (A : Type) :=
| Ok (a : A)
| Raise (e : exn).
Arguments Ok {A} a.
Arguments Raise {A} e.

(** ** Closed forms used in the statements

    [execute] builds its argument vector with two loops; these
    definitions describe the outcome of the loops as data. *)

(** The [-e] option for one variable. *)
Definition e_flag (key value : str) : list str :=
  [py "-e"; key ++ py "=" ++ value].

Definition e_flags (items : list (str * str)) : list str :=
  flat_map (fun kv => e_flag (fst kv) (snd kv)) items.

(** The forwarded names that the host environment defines, with their
    host values, in the order of [forward_env]. *)
Definition forwarded_items (environ : gmap str str) (keys : list str)
  : list (str * str) :=
  omap (fun key => match environ !! key with
                   | Some value => Some (key, value)
                   | None => None
                   end) keys.

(** All variables passed to the runtime, in the order of the options. *)
Definition injected_items (cfg : DockerEnvironmentConfig)
  (environ : gmap str str) : list (str * str) :=
  forwarded_items environ (forward_env cfg) ++ env cfg.

(** The container runtime's rule for repeated [-e] options of one name:
    the last one given is the one in force. *)
Fixpoint last_write_wins (items : list (str * str)) (k : str) : option str :=
  match items with
  | [] => None
  | kv :: rest =>
      match last_write_wins rest k with
      | Some v => Some v
      | None => if decide (fst kv = k) then Some (snd kv) else None
      end
  end.

(** The [subprocess.run] calls of [_start_container] and
    [_attach_to_container], as data; [h] is the drawn [uuid4().hex]. *)
Definition start_call (cfg : DockerEnvironmentConfig) (h : str) : run_call :=
  {| args := [executable cfg; py "run"; py "-d"; py "--name";
              py "minisweagent-" ++ take 8 h; py "-w"; cwd cfg]
             ++ run_args cfg
             ++ [image cfg; py "sleep"; container_timeout cfg];
     run_timeout := pull_timeout cfg;
     check := true;
     stderr_to_stdout := false |}.

Definition check_running_call (cfg : DockerEnvironmentConfig) (id : str)
  : run_call :=
  {| args := [executable cfg; py "inspect"; py "-f";
              py "{{.State.Running}}"; id];
     run_timeout := 10;
     check := true;
     stderr_to_stdout := false |}.

Definition get_info_call (cfg : DockerEnvironmentConfig) (id : str)
  : run_call :=
  {| args := [executable cfg; py "inspect"; py "-f";
              py "{{.Id}} {{.Name}}"; id];
     run_timeout := 10;
     check := true;
     stderr_to_stdout := false |}.

(** A child that ran and did not succeed: non-zero exit, or timeout. *)
Definition failed (o : child) : Prop :=
  match o with
  | Exited _ _ rc => rc <> 0
  | Expired => True
  | NotLaunched _ => False
  end.

(** What [subprocess.run(..., check=True)] raises for such a child. *)
Definition subprocess_error (c : run_call) (o : child) : exn :=
  match o with
  | Exited out err rc => CalledProcessError rc (args c) out err
  | Expired => TimeoutExpired (args c) (run_timeout c)
  | NotLaunched msg => OSError msg
  end.

(** ** The configuration as Python data

    [dataclasses.asdict] turns the configuration into a dict from field
    names to plain values; [pyobj] is the part of Python's values it
    needs. *)
#[warnings="-register-all"]
Inductive pyobj :=
| PNone
| PStr (s : str)
| PInt (n : Z)
| PList (l : list pyobj)
| PDict (items : list (str * pyobj)).

(** [asdict(cfg)]: the fields in declaration order. *)
Definition asdict (cfg : DockerEnvironmentConfig) : list (str * pyobj) :=
  [(py "image", PStr (image cfg));
   (py "cwd", PStr (cwd cfg));
   (py "env", PDict (map (fun kv => (fst kv, PStr (snd kv))) (env cfg)));
   (py "forward_env", PList (map PStr (forward_env cfg)));
   (py "timeout", PInt (timeout cfg));
   (py "executable", PStr (executable cfg));
   (py "run_args", PList (map PStr (run_args cfg)));
   (py "container_timeout", PStr (container_timeout cfg));
   (py "pull_timeout", PInt (pull_timeout cfg));
   (py "container_id", match cfg_container_id cfg with
                       | Some id => PStr id
                       | None => PNone
                       end)].

(** [d[key]] on such a dict. *)
Fixpoint dict_get (d : list (str * pyobj)) (key : str) : option pyobj :=
  match d with
  | [] => None
  | (k, v) :: rest => if decide (k = key) then Some v else dict_get rest key
  end.

(** The keyword arguments of [DockerEnvironmentConfig(...)]: [image] is
    required, every other field may be left out. *)
Record kwargs := {
  kw_image : str;
  kw_cwd : option str;
  kw_env : option (list (str * str));
  kw_forward_env : option (list str);
  kw_timeout : option Z;
  kw_executable : option str;
  kw_run_args : option (list str);
  kw_container_timeout : option str;
  kw_pull_timeout : option Z;
  kw_container_id : option str;
}.

(** The default of [executable]:
    [os.getenv("MSWEA_DOCKER_EXECUTABLE", "docker")], read when the module
    is imported; [import_environ] is [os.environ] at that moment. *)
Definition default_executable (import_environ : gmap str str) : str :=
  match import_environ !! py "MSWEA_DOCKER_EXECUTABLE" with
  | Some v => v
  | None => py "docker"
  end.

(** [DockerEnvironmentConfig] called with keyword arguments: the field
    defaults. *)
Definition config_class (import_environ : gmap str str) (kw : kwargs)
  : DockerEnvironmentConfig :=
  {| image := kw_image kw;
     cwd := default (py "/") (kw_cwd kw);
     env := default [] (kw_env kw);
     forward_env := default [] (kw_forward_env kw);
     timeout := default 30 (kw_timeout kw);
     executable := default (default_executable import_environ)
                           (kw_executable kw);
     run_args := default [py "--rm"] (kw_run_args kw);
     container_timeout := default (py "2h") (kw_container_timeout kw);
     pull_timeout := default 120 (kw_pull_timeout kw);
     cfg_container_id := kw_container_id kw |}.

(** Keyword arguments that give the image only. *)
Definition only_image (img : str) : kwargs :=
  {| kw_image := img; kw_cwd := None; kw_env := None;
     kw_forward_env := None; kw_timeout := None; kw_executable := None;
     kw_run_args := None; kw_container_timeout := None;
     kw_pull_timeout := None; kw_container_id := None |}.

(** ** Predicates on strings and traces used in the statements *)

Definition is_popen (e : event) : bool :=
  match e with EvPopen _ => true | _ => false end.

Definition count_popen (t : list event) : nat :=
  length (filter is_popen t).

(** Neither the first nor the last code point is whitespace. *)
Definition no_lead (p : N -> bool) (s : str) : Prop :=
  match s with
  | [] => True
  | c :: _ => p c = false
  end.

(** A token: not empty, no whitespace anywhere. *)
Definition is_token (s : str) : Prop :=
  s <> [] /\ Forall (fun c => isspace c = false) s.

(** Every synchronous invocation in the trace runs [exe]. *)
Definition runs_only (exe : str) (t : list event) : Prop :=
  Forall (fun e => match e with
                   | EvRun c => head (args c) = Some exe
                   | _ => True
                   end) t.

(** ** A scripted host, for running the methods on concrete inputs

    The host answers the [subprocess.run] calls from a list, one answer
    per call, and fails to launch anything once the list is used up. *)
Record host := {
  answers : list child;
  hex : str;
  environ : gmap str str;
}.

Definition host_child (c : run_call) (h : host) : child * host :=
  match answers h with
  | a :: rest => (a, {| answers := rest; hex := hex h; environ := environ h |})
  | [] => (NotLaunched (py "No such file or directory"), h)
  end.

Definition host_uuid (h : host) : str * host := (hex h, h).

(** On the scripted host the shell of [Popen] can always be started. *)
Definition host_popen (cmd : str) (h : host) : spawn * host := (Spawned, h).

(** A host that has run out of processes: [Popen] raises the [OSError]
    of a failed [fork]. *)
Definition host_popen_exhausted (cmd : str) (h : host) : spawn * host :=
  (SpawnRaised (OSError (py "[Errno 11] Resource temporarily unavailable")),
   h).

Definition example_config : DockerEnvironmentConfig :=
  {| image := py "alpine";
     cwd := py "/tmp";
     env := [(py "LANG", py "C"); (py "TOKEN", py "explicit")];
     forward_env := [py "TOKEN"; py "EMPTY"; py "MISSING"];
     timeout := 30;
     executable := py "docker";
     run_args := [py "--rm"];
     container_timeout := py "2h";
     pull_timeout := 120;
     cfg_container_id := None |}.

(** The same configuration in attach mode. *)
Definition example_attach_config : DockerEnvironmentConfig :=
  {| image := py "alpine";
     cwd := py "/tmp";
     env := [(py "LANG", py "C"); (py "TOKEN", py "explicit")];
     forward_env := [py "TOKEN"; py "EMPTY"; py "MISSING"];
     timeout := 30;
     executable := py "docker";
     run_args := [py "--rm"];
     container_timeout := py "2h";
     pull_timeout := 120;
     cfg_container_id := Some (py "c0ff") |}.

Definition example_environ : gmap str str :=
  <[py "TOKEN" := py "from-host"]> (<[py "EMPTY" := []]> ∅).

Definition example_host (script : list child) : host :=
  {| answers := script;
     hex := py "0123456789abcdef0123456789abcdef";
     environ := example_environ |}.

(** ** The methods of [DockerEnvironment] *)

Section Methods.

(** Everything outside the Python process. *)
Variable World : Type.
(** What the child started by one [subprocess.run] call does. *)
Variable child_process : run_call -> World -> child * World.
(** [uuid.uuid4().hex]: 32 hexadecimal digits. *)
Variable uuid4_hex : World -> str * World.
(** [os.environ] of the host process. *)
Variable os_environ : World -> gmap str str.
(** What one [subprocess.Popen] call with [shell=True] does. *)
Variable popen_process : str -> World -> spawn * World.

(** The state a method runs in: the session object, the outside world,
    and the trace of effects so far (oldest first). *)
Record sys := {
  self : DockerEnvironment;
  world : World;
  trace : list event;
}.

Definition M (A : Type) : Type := sys -> result A * sys.

Definition ret {A} (a : A) : M A := fun σ => (Ok a, σ).
Definition raise {A} (e : exn) : M A := fun σ => (Raise e, σ).
Definition bind {A B} (m : M A) (k : A -> M B) : M B :=
  fun σ => match m σ with
           | (Ok a, σ') => k a σ'
           | (Raise e, σ') => (Raise e, σ')
           end.
(** [try: m  except ...: h e] *)
Definition try_except {A} (m : M A) (h : exn -> M A) : M A :=
  fun σ => match m σ with
           | (Ok a, σ') => (Ok a, σ')
           | (Raise e, σ') => h e σ'
           end.

Notation "x <- m ;; k" := (bind m (fun x => k))
  (at level 100, m at next level, right associativity).
Notation "m ;;; k" := (bind m (fun _ => k))
  (at level 100, right associativity).

Definition get_self : M DockerEnvironment := fun σ => (Ok (self σ), σ).
Definition emit (e : event) : M unit :=
  fun σ => (Ok tt, {| self := self σ; world := world σ;
                      trace := trace σ ++ [e] |}).
Definition assign_container_id (v : str) : M unit :=
  fun σ => (Ok tt, {| self := set_container_id (Some v) (self σ);
                      world := world σ; trace := trace σ |}).

Definition logger (lvl : loglevel) (msg : str) : M unit := emit (EvLog lvl msg).

(** [os.getenv(key)] *)
Definition os_getenv (key : str) : M (option str) :=
  fun σ => (Ok (os_environ (world σ) !! key), σ).

(** [uuid.uuid4().hex] *)
Definition uuid4 : M str :=
  fun σ => let '(h, w) := uuid4_hex (world σ) in
           (Ok h, {| self := self σ; world := w; trace := trace σ |}).

(** [subprocess.run(c.args, timeout=..., check=..., ...)] *)
Definition subprocess_run (c : run_call) : M CompletedProcess :=
  fun σ =>
    let '(o, w) := child_process c (world σ) in
    let σ' := {| self := self σ; world := w; trace := trace σ ++ [EvRun c] |} in
    match o with
    | Exited out err rc =>
        if check c && negb (rc =? 0)
        then (Raise (CalledProcessError rc (args c) out err), σ')
        else (Ok {| cp_stdout := out;
                    cp_stderr := if stderr_to_stdout c then None else Some err;
                    cp_returncode := rc |}, σ')
    | Expired => (Raise (TimeoutExpired (args c) (run_timeout c)), σ')
    | NotLaunched msg => (Raise (OSError msg), σ')
    end.

(** [subprocess.Popen(cmd, shell=True)]: the call is recorded; when the
    shell is started it is not waited for and nothing it does comes back
    to the caller; when the call raises, the error goes to the caller. *)
Definition subprocess_Popen_shell (cmd : str) : M unit :=
  fun σ =>
    let '(o, w) := popen_process cmd (world σ) in
    let σ' := {| self := self σ; world := w;
                 trace := trace σ ++ [EvPopen cmd] |} in
    match o with
    | Spawned => (Ok tt, σ')
    | SpawnRaised e => (Raise e, σ')
    end.

(** [_start_container] *)
Definition start_cmd (cfg : DockerEnvironmentConfig) (container_name : str)
  : list str :=
  [executable cfg; py "run"; py "-d"; py "--name"; container_name;
   py "-w"; cwd cfg]
  ++ run_args cfg
  ++ [image cfg; py "sleep"; container_timeout cfg].

Definition _start_container : M unit :=
  s <- get_self ;;
  h <- uuid4 ;;
  let container_name := py "minisweagent-" ++ take 8 h in
  let cmd := start_cmd (config s) container_name in
  logger DEBUG (py "Starting container with command: " ++ shlex_join cmd) ;;;
  result <- subprocess_run {| args := cmd;
                              run_timeout := pull_timeout (config s);
                              check := true;
                              stderr_to_stdout := false |} ;;
  logger INFO (py "Started container " ++ container_name
               ++ py " with ID " ++ strip (cp_stdout result)) ;;;
  assign_container_id (strip (cp_stdout result)).

(** [_attach_to_container] *)
Definition inspect_cmd (cfg : DockerEnvironmentConfig) (fmt : str)
  (container_id : str) : list str :=
  [executable cfg; py "inspect"; py "-f"; fmt; container_id].

Definition _attach_to_container (container_id : str) : M unit :=
  s <- get_self ;;
  let cmd_check_running :=
    inspect_cmd (config s) (py "{{.State.Running}}") container_id in
  logger DEBUG (py "Checking status of container " ++ container_id) ;;;
  result_check <-
    try_except
      (subprocess_run {| args := cmd_check_running; run_timeout := 10;
                         check := true; stderr_to_stdout := false |})
      (fun e =>
         match e with
         | CalledProcessError _ _ _ stderr =>
             logger ERROR (py "Failed to inspect container " ++ container_id
                           ++ py ". Does it exist? Error: " ++ stderr) ;;;
             raise (RuntimeError (py "Container '" ++ container_id
                                  ++ py "' not found or docker error.")
                                 (Some e))
         | TimeoutExpired _ _ =>
             logger ERROR (py "Timeout while inspecting container "
                           ++ container_id ++ py ".") ;;;
             raise (RuntimeError (py "Timeout checking container "
                                  ++ container_id ++ py ".") None)
         | _ => raise e
         end) ;;
  if negb (bool_decide (strip (cp_stdout result_check) = py "true"))
  then
    logger ERROR (py "Container " ++ container_id
                  ++ py " is not in a 'running' state.") ;;;
    raise (RuntimeError (py "Container " ++ container_id
                         ++ py " is not 'running'. Please start it first.")
                        None)
  else
    let cmd_get_info :=
      inspect_cmd (config s) (py "{{.Id}} {{.Name}}") container_id in
    result_info <-
      subprocess_run {| args := cmd_get_info; run_timeout := 10;
                        check := true; stderr_to_stdout := false |} ;;
    match split (strip (cp_stdout result_info)) with
    | [full_id; name] =>
        let name := lstrip_slash name in
        assign_container_id full_id ;;;
        logger INFO (py "Successfully attached to running container " ++ name
                     ++ py " (ID: " ++ full_id ++ py ")")
    | parts => raise (UnpackError 2 (length parts))
    end.

(** [execute]: the two loops that add [-e] options to [cmd]. *)
Fixpoint extend_forward_env (keys : list str) (cmd : list str)
  : M (list str) :=
  match keys with
  | [] => ret cmd
  | key :: rest =>
      v <- os_getenv key ;;
      match v with
      | Some value => extend_forward_env rest (cmd ++ e_flag key value)
      | None => extend_forward_env rest cmd
      end
  end.

Definition extend_env (items : list (str * str)) (cmd : list str)
  : list str :=
  fold_left (fun cmd kv => cmd ++ e_flag (fst kv) (snd kv)) items cmd.

(** [x or default] on a [str] and on an [int | None]. *)
Definition str_or (x default : str) : str :=
  match x with [] => default | _ => x end.

Definition int_or (x : option Z) (default : Z) : Z :=
  match x with
  | Some t => if t =? 0 then default else t
  | None => default
  end.

(** [execute(command, cwd, timeout=timeout)] *)
Definition execute (command : str) (cwd_arg : str) (timeout_arg : option Z)
  : M (gmap str pyval) :=
  s <- get_self ;;
  let cwd := str_or cwd_arg (cwd (config s)) in
  match container_id s with
  | Some (c :: id') =>
      let container_id := c :: id' in
      let cmd := [executable (config s); py "exec"; py "-w"; cwd] in
      cmd <- extend_forward_env (forward_env (config s)) cmd ;;
      let cmd := extend_env (env (config s)) cmd in
      let cmd := cmd ++ [container_id; py "bash"; py "-lc"; command] in
      result <- subprocess_run
                  {| args := cmd;
                     run_timeout := int_or timeout_arg (timeout (config s));
                     check := false;
                     stderr_to_stdout := true |} ;;
      ret (<[py "returncode" := VInt (cp_returncode result)]>
             (<[py "output" := VStr (cp_stdout result)]> ∅))
  | _ => raise (AssertionError (py "Container not started"))
  end.

(** [cleanup] *)
Definition cleanup_cmd (exe id : str) : str :=
  py "(timeout 60 " ++ exe ++ py " stop " ++ id ++ py " || " ++ exe
  ++ py " rm -f " ++ id ++ py ") >/dev/null 2>&1 &".

Definition cleanup : M unit :=
  s <- get_self ;;
  match container_id s with
  | Some id => subprocess_Popen_shell (cleanup_cmd (executable (config s)) id)
  | None => ret tt
  end.

(** [__del__] *)
Definition __del__ : M unit := cleanup.

(** [__init__], from the point where [self.config] has been
    built; the [print] of the configuration goes to standard output and
    is left out. *)
Definition __init__ (cfg : DockerEnvironmentConfig) : M unit :=
  fun σ =>
    let σ0 := {| self := {| config := cfg; container_id := None |};
                 world := world σ; trace := trace σ |} in
    match cfg_container_id cfg with
    | Some id => _attach_to_container id σ0
    | None => _start_container σ0
    end.

(** The public and internal operations on a session, for statements
    about arbitrary sequences of calls. *)
Inductive op :=
| OpStart
| OpAttach (id : str)
| OpExecute (command cwd_arg : str) (timeout_arg : option Z)
| OpCleanup.

Definition run_op (o : op) (σ : sys) : sys :=
  match o with
  | OpStart => snd (_start_container σ)
  | OpAttach id => snd (_attach_to_container id σ)
  | OpExecute c d t => snd (execute c d t σ)
  | OpCleanup => snd (cleanup σ)
  end.

Definition run_ops (os : list op) (σ : sys) : sys :=
  fold_left (fun σ o => run_op o σ) os σ.


(** The session states in which [execute] passes its assertion. *)
Definition started (σ : sys) (id : str) : Prop :=
  container_id (self σ) = Some id /\ id <> [].

(** The one [subprocess.run] call of [execute], as data. *)
Definition exec_call (cfg : DockerEnvironmentConfig) (environ : gmap str str)
  (id command cwd_arg : str) (timeout_arg : option Z) : run_call :=
  {| args := [executable cfg; py "exec"; py "-w"; str_or cwd_arg (cwd cfg)]
             ++ e_flags (injected_items cfg environ)
             ++ [id; py "bash"; py "-lc"; command];
     run_timeout := int_or timeout_arg (timeout cfg);
     check := false;
     stderr_to_stdout := true |}.

Definition after_run (c : run_call) (w : World) (σ : sys) : sys :=
  {| self := self σ; world := w; trace := trace σ ++ [EvRun c] |}.

(** [get_template_vars] *)
Definition get_template_vars : M (list (str * pyobj)) :=
  s <- get_self ;;
  ret (asdict (config s)).

(** [DockerEnvironment] called with keyword arguments of the
    configuration: the configuration is built, then [__init__] starts or
    attaches. *)
Definition DockerEnvironment_new (import_environ : gmap str str)
  (kw : kwargs) : M unit :=
  __init__ (config_class import_environ kw).

(** The operations of [op] counted in a list of calls. *)
(** The configuration, the detached processes and the executable of the
    synchronous ones, over one call. *)
Definition frame_of (σ σ' : sys) (popens : nat) : Prop :=
  config (self σ') = config (self σ)
  /\ count_popen (trace σ') = (count_popen (trace σ) + popens)%nat
  /\ (runs_only (executable (config (self σ))) (trace σ) ->
      runs_only (executable (config (self σ))) (trace σ')).

Definition is_cleanup_op (o : op) : bool :=
  match o with OpCleanup => true | _ => false end.

Definition count_cleanups (os : list op) : nat :=
  length (filter is_cleanup_op os).

End Methods.

Arguments self {World} _.
Arguments world {World} _.
Arguments trace {World} _.
Arguments started {World} σ id.
Arguments after_run {World} c w σ.
Arguments execute {World} child_process os_environ command cwd_arg timeout_arg _.
Arguments cleanup {World} popen_process _.
Arguments __del__ {World} popen_process _.
Arguments _start_container {World} child_process uuid4_hex _.
Arguments _attach_to_container {World} child_process container_id _.
Arguments __init__ {World} child_process uuid4_hex cfg _.
Arguments extend_forward_env {World} os_environ keys cmd _.
Arguments frame_of {World} σ σ' popens.
Arguments get_template_vars {World} _.
Arguments DockerEnvironment_new {World} child_process uuid4_hex import_environ kw _.
Arguments run_op {World} child_process uuid4_hex os_environ popen_process o σ.
Arguments run_ops {World} child_process uuid4_hex os_environ popen_process
  os σ.

(** A session on the scripted host, with an empty trace. *)
Definition example_sys (id : option str) (script : list child) : sys host :=
  {| self := {| config := example_config; container_id := id |};
     world := example_host script;
     trace := [] |}.

(** Unfolding of the methods down to the state they return. *)
Ltac unfold_method :=
  unfold _start_container, _attach_to_container, cleanup, try_except, bind,
    get_self, uuid4, logger, emit, subprocess_run, subprocess_Popen_shell,
    assign_container_id, raise, ret;
  simpl.

Tactic Notation "unfold_execute" :=
  unfold execute, bind, get_self, raise.
Tactic Notation "unfold_execute" "in" hyp(H) :=
  unfold execute, bind, get_self, raise in H.

Ltac unfold_run_ops := unfold run_ops in *.

Ltac unfold_init_del := unfold __init__, __del__.

(** A second host environment: the first one and a variable that is
    not forwarded. *)
Definition example_sys_with_secret (id : option str) (script : list child)
  : sys host :=
  {| self := {| config := example_config; container_id := id |};
     world := {| answers := script;
                 hex := py "0123456789abcdef0123456789abcdef";
                 environ := <[py "SECRET" := py "hunter2"]> example_environ |};
     trace := [] |}.

(** * Properties *)

Section Properties.

Context {World : Type}.
Context (child_process : run_call -> World -> child * World).
Context (uuid4_hex : World -> str * World).
Context (os_environ : World -> gmap str str).
Context (popen_process : str -> World -> spawn * World).

Local Abbreviation cleanup := (cleanup popen_process).
Local Abbreviation __del__ := (__del__ popen_process).
Local Abbreviation execute := (execute child_process os_environ).
Local Abbreviation _start_container :=
  (_start_container child_process uuid4_hex).
Local Abbreviation _attach_to_container :=
  (_attach_to_container child_process).
Local Abbreviation run_op :=
  (run_op child_process uuid4_hex os_environ popen_process).
Local Abbreviation run_ops :=
  (run_ops child_process uuid4_hex os_environ popen_process).
Local Abbreviation sys := (sys World).

Implicit Types (σ : sys) (id command cwd_arg : str) (timeout_arg : option Z).

(** ** The two loops of [execute] *)

Lemma e_flags_app (a b : list (str * str)) :
  e_flags (a ++ b) = e_flags a ++ e_flags b.
Proof. unfold e_flags. apply flat_map_app. Qed.

Lemma e_flags_cons (key value : str) (rest : list (str * str)) :
  e_flags ((key, value) :: rest) = e_flag key value ++ e_flags rest.
Proof. reflexivity. Qed.

Lemma e_flag_empty (key : str) : e_flag key [] = [py "-e"; key ++ py "="].
Proof. unfold e_flag. by rewrite app_nil_r. Qed.

Lemma extend_forward_env_eq (keys : list str) (cmd : list str) σ :
  extend_forward_env os_environ keys cmd σ
  = (Ok (cmd ++ e_flags (forwarded_items (os_environ (world σ)) keys)), σ).
Proof.
  revert cmd. induction keys as [|key rest IH]; intros cmd; simpl.
  - unfold ret. by rewrite app_nil_r.
  - unfold bind, os_getenv.
    destruct (os_environ (world σ) !! key) as [value|]; simpl; rewrite IH.
    + by rewrite <- app_assoc.
    + done.
Qed.

Lemma extend_env_eq (items : list (str * str)) (cmd : list str) :
  extend_env items cmd = cmd ++ e_flags items.
Proof.
  revert cmd. induction items as [|kv rest IH]; intros cmd; simpl.
  - by rewrite app_nil_r.
  - unfold extend_env in *. simpl. rewrite IH. by rewrite <- app_assoc.
Qed.

(** [execute] on a started session is one [subprocess.run] of
    [exec_call], and its result is read off the child's answer. *)
Lemma execute_started command cwd_arg timeout_arg σ id :
  started σ id ->
  execute command cwd_arg timeout_arg σ
  = let c := exec_call (config (self σ)) (os_environ (world σ))
                       id command cwd_arg timeout_arg in
    match child_process c (world σ) with
    | (Exited out err rc, w) =>
        (Ok (<[py "returncode" := VInt rc]> (<[py "output" := VStr out]> ∅)),
         after_run c w σ)
    | (Expired, w) =>
        (Raise (TimeoutExpired (args c) (run_timeout c)), after_run c w σ)
    | (NotLaunched msg, w) => (Raise (OSError msg), after_run c w σ)
    end.
Proof.
  intros [Hid Hne]. unfold_execute. rewrite Hid.
  destruct id as [|c0 id']; [done|].
  rewrite extend_forward_env_eq, extend_env_eq.
  unfold subprocess_run, exec_call, injected_items, after_run, ret. simpl.
  rewrite e_flags_app, <- !app_assoc. simpl.
  destruct (child_process _ (world σ)) as [[out err rc| |msg] w]; done.
Qed.

(** [execute] never touches the session object. *)
Lemma execute_self command cwd_arg timeout_arg σ :
  self (snd (execute command cwd_arg timeout_arg σ)) = self σ.
Proof.
  destruct (container_id (self σ)) as [[|c0 id']|] eqn:Hid.
  - unfold_execute. by rewrite Hid.
  - rewrite (execute_started _ _ _ _ (c0 :: id')); [|by split].
    simpl. by destruct (child_process _ _) as [[| |] ?].
  - unfold_execute. by rewrite Hid.
Qed.


Lemma execute_trace command cwd_arg timeout_arg σ id :
  started σ id ->
  trace (snd (execute command cwd_arg timeout_arg σ))
  = trace σ ++ [EvRun (exec_call (config (self σ)) (os_environ (world σ))
                                 id command cwd_arg timeout_arg)].
Proof.
  intros Hs. rewrite (execute_started _ _ _ _ id Hs). simpl.
  by destruct (child_process _ _) as [[| |] ?].
Qed.

(** ** Variables passed with [-e] *)

Lemma forwarded_items_elem (environ : gmap str str) (keys : list str)
  (key value : str) :
  (key, value) ∈ forwarded_items environ keys
  <-> key ∈ keys /\ environ !! key = Some value.
Proof.
  unfold forwarded_items. rewrite list_elem_of_omap. split.
  - intros (k & Hk & Hf). destruct (environ !! k) eqn:E; [|done].
    injection Hf as <- <-. done.
  - intros [Hk E]. exists key. by rewrite E.
Qed.

Lemma last_write_wins_app (a b : list (str * str)) (k : str) :
  last_write_wins (a ++ b) k
  = match last_write_wins b k with
    | Some v => Some v
    | None => last_write_wins a k
    end.
Proof.
  induction a as [|kv a IH]; simpl.
  - by destruct (last_write_wins b k).
  - rewrite IH. by destruct (last_write_wins b k).
Qed.

Lemma last_write_wins_Some (items : list (str * str)) (k v : str) :
  last_write_wins items k = Some v -> (k, v) ∈ items.
Proof.
  induction items as [|[k' v'] rest IH]; simpl; [done|].
  destruct (last_write_wins rest k) as [v0|].
  - intros [= <-]. right. by apply IH.
  - case_decide; [|done]. intros [= <-]. subst. left.
Qed.

(** In a dict, the value found for a key is the value of its item. *)
Lemma last_write_wins_dict (items : list (str * str)) (k v : str) :
  NoDup (map fst items) -> (k, v) ∈ items ->
  last_write_wins items k = Some v.
Proof.
  induction items as [|[k' v'] rest IH]; simpl; intros Hnd Hin.
  - by apply elem_of_nil in Hin.
  - apply NoDup_cons in Hnd as [Hfresh Hnd].
    apply elem_of_cons in Hin as [[= -> ->]|Hin].
    + destruct (last_write_wins rest k') as [v0|] eqn:E.
      * apply last_write_wins_Some in E. exfalso. apply Hfresh.
        apply list_elem_of_fmap. by exists (k', v0).
      * by rewrite decide_True.
    + by rewrite (IH Hnd Hin).
Qed.


(** ** Claims about [execute] *)

(** C1 (as amended): a call of [execute] that returns, returns a
    dictionary whose keys are exactly 'output' and 'returncode'; the
    call was made on a started session, 'output' holds the child's
    combined output and 'returncode' its exit code.  Conversely, on a
    started session every exit code of the child, zero or not, comes
    back in 'returncode' of a returned dictionary: nothing is raised. *)
Theorem execute_returns_output_and_returncode command cwd_arg timeout_arg σ :
  (forall d σ',
     execute command cwd_arg timeout_arg σ = (Ok d, σ') ->
     dom d = {[py "output"; py "returncode"]}
     /\ exists id out err rc w,
         started σ id
         /\ child_process (exec_call (config (self σ)) (os_environ (world σ))
                                     id command cwd_arg timeout_arg)
                          (world σ) = (Exited out err rc, w)
         /\ d !! py "output" = Some (VStr out)
         /\ d !! py "returncode" = Some (VInt rc))
  /\ (forall id out err rc w,
        started σ id ->
        child_process (exec_call (config (self σ)) (os_environ (world σ))
                                 id command cwd_arg timeout_arg)
                      (world σ) = (Exited out err rc, w) ->
        exists d σ',
          execute command cwd_arg timeout_arg σ = (Ok d, σ')
          /\ d !! py "output" = Some (VStr out)
          /\ d !! py "returncode" = Some (VInt rc)).
Proof.
  split.
  - intros d σ' Hex.
    destruct (container_id (self σ)) as [[|c0 id']|] eqn:Hid;
      try (unfold_execute in Hex;
           rewrite Hid in Hex; discriminate Hex).
    assert (Hs : started σ (c0 :: id')) by (by split).
    rewrite (execute_started _ _ _ _ _ Hs) in Hex. simpl in Hex.
    destruct (child_process _ (world σ)) as [[out err rc| |msg] w] eqn:Hc;
      [|discriminate Hex..].
    injection Hex as <- <-. split.
    + rewrite !dom_insert_L, dom_empty_L. set_solver.
    + exists (c0 :: id'), out, err, rc, w. repeat split; try done.
  - intros id out err rc w Hs Hc.
    rewrite (execute_started _ _ _ _ _ Hs). simpl. rewrite Hc.
    eexists _, _. split; [reflexivity|]. split; done.
Qed.

(** C3: [execute] on a session whose container identifier is unset
    raises the assertion failure "Container not started" and leaves the
    whole state, the trace of child processes included, as it was: no
    runtime invocation is made. *)
Theorem execute_unset_fails_fast command cwd_arg timeout_arg σ :
  container_id (self σ) = None ->
  execute command cwd_arg timeout_arg σ
  = (Raise (AssertionError (py "Container not started")), σ)
  /\ filter is_child_process
       (trace (snd (execute command cwd_arg timeout_arg σ)))
     = filter is_child_process (trace σ).
Proof.
  intros Hid.
  assert (E : execute command cwd_arg timeout_arg σ
              = (Raise (AssertionError (py "Container not started")), σ)).
  { unfold_execute. by rewrite Hid. }
  by rewrite E.
Qed.

(** C5: on a started session the exec invocation is the executable,
    [exec -w <cwd>], one [-e name=value] per forwarded name that the host
    environment defines (a name it does not define contributes nothing),
    then one [-e name=value] per item of the configured [env], then the
    container, [bash -lc] and the command.  As the explicit items come
    last, the last option given for an explicitly configured name carries
    the configured value, whatever was forwarded. *)
Theorem execute_env_injection command cwd_arg timeout_arg σ id :
  started σ id ->
  NoDup (map fst (env (config (self σ)))) ->
  let cfg := config (self σ) in
  let environ := os_environ (world σ) in
  exists c,
    trace (snd (execute command cwd_arg timeout_arg σ)) = trace σ ++ [EvRun c]
    /\ args c
       = [executable cfg; py "exec"; py "-w"; str_or cwd_arg (cwd cfg)]
         ++ e_flags (forwarded_items environ (forward_env cfg))
         ++ e_flags (env cfg)
         ++ [id; py "bash"; py "-lc"; command]
    /\ (forall key value,
          (key, value) ∈ forwarded_items environ (forward_env cfg)
          <-> key ∈ forward_env cfg /\ environ !! key = Some value)
    /\ (forall k v,
          (k, v) ∈ env cfg ->
          last_write_wins (injected_items cfg environ) k = Some v).
Proof.
  intros Hs Hnd cfg environ. subst cfg environ. eexists. split; [by apply execute_trace|].
  split; [|split].
  - unfold exec_call, injected_items. simpl. by rewrite e_flags_app, <- app_assoc.
  - intros key value. apply forwarded_items_elem.
  - intros k v Hin. unfold injected_items. rewrite last_write_wins_app.
    by rewrite (last_write_wins_dict _ _ _ Hnd Hin).
Qed.

(** Two calls of [execute] that resolve to the same invocation are the
    same call. *)
Lemma execute_same_call command cwd1 cwd2 (t1 t2 : option Z) σ :
  str_or cwd1 (cwd (config (self σ))) = str_or cwd2 (cwd (config (self σ))) ->
  int_or t1 (timeout (config (self σ))) = int_or t2 (timeout (config (self σ))) ->
  execute command cwd1 t1 σ = execute command cwd2 t2 σ.
Proof.
  intros Hcwd Ht.
  destruct (container_id (self σ)) as [[|c0 id']|] eqn:Hid.
  - unfold_execute. by rewrite Hid.
  - assert (Hs : started σ (c0 :: id')) by (by split).
    rewrite !(execute_started _ _ _ _ _ Hs). unfold exec_call.
    by rewrite Hcwd, Ht.
  - unfold_execute. by rewrite Hid.
Qed.

(** C9: each optional argument falls back on its own, whatever the
    other one is.  An empty [cwd] is the configured directory: the call
    is the one made with that directory, and on a started session the
    directory after [-w] is the configured one while the timeout is
    still resolved from the timeout argument.  A zero [timeout] is the
    configured timeout: the call is the one made without a timeout, and
    the one made with the configured timeout, and on a started session
    the run has the configured timeout while the directory is still
    resolved from the directory argument. *)
Theorem execute_falsy_arguments_fall_back command cwd_arg timeout_arg σ :
  let cfg := config (self σ) in
  execute command [] timeout_arg σ = execute command (cwd cfg) timeout_arg σ
  /\ execute command cwd_arg (Some 0) σ = execute command cwd_arg None σ
  /\ execute command cwd_arg (Some 0) σ
     = execute command cwd_arg (Some (timeout cfg)) σ
  /\ forall id,
       started σ id ->
       trace (snd (execute command [] timeout_arg σ))
       = trace σ
         ++ [EvRun {| args := [executable cfg; py "exec"; py "-w"; cwd cfg]
                              ++ e_flags (injected_items cfg
                                            (os_environ (world σ)))
                              ++ [id; py "bash"; py "-lc"; command];
                      run_timeout := match timeout_arg with
                                     | Some t =>
                                         if t =? 0 then timeout cfg else t
                                     | None => timeout cfg
                                     end;
                      check := false;
                      stderr_to_stdout := true |}]
       /\ trace (snd (execute command cwd_arg (Some 0) σ))
          = trace σ
            ++ [EvRun {| args := [executable cfg; py "exec"; py "-w";
                                  match cwd_arg with
                                  | [] => cwd cfg
                                  | _ => cwd_arg
                                  end]
                                 ++ e_flags (injected_items cfg
                                               (os_environ (world σ)))
                                 ++ [id; py "bash"; py "-lc"; command];
                         run_timeout := timeout cfg;
                         check := false;
                         stderr_to_stdout := true |}].
Proof.
  intros cfg. subst cfg. split; [|split; [|split]].
  - apply execute_same_call; [|done].
    simpl. by destruct (cwd (config (self σ))).
  - by apply execute_same_call.
  - apply execute_same_call; [done|]. simpl.
    by destruct (timeout (config (self σ)) =? 0).
  - intros id Hs. by rewrite !(execute_trace _ _ _ _ _ Hs).
Qed.

Lemma e_flags_forwarded_items (environ : gmap str str) (keys : list str) :
  e_flags (forwarded_items environ keys)
  = flat_map (fun key => match environ !! key with
                         | Some value => [py "-e"; key ++ py "=" ++ value]
                         | None => []
                         end) keys.
Proof.
  unfold forwarded_items, e_flags.
  induction keys as [|key rest IH]; [done|]. simpl.
  destruct (environ !! key) as [value|]; simpl; [do 2 f_equal|]; apply IH.
Qed.

(** C10: on a started session the options that forwarding puts in the
    exec invocation are, name by name in the order of [forward_env],
    [-e name=value] for a name the host environment defines and nothing
    for a name it does not define.  A name defined as the empty string
    is defined: it is passed as [-e name=]. *)
Theorem execute_forwards_empty_value command cwd_arg timeout_arg σ id :
  started σ id ->
  let cfg := config (self σ) in
  let environ := os_environ (world σ) in
  let forwarded key := match environ !! key with
                       | Some value => [py "-e"; key ++ py "=" ++ value]
                       | None => []
                       end in
  exists c,
    trace (snd (execute command cwd_arg timeout_arg σ)) = trace σ ++ [EvRun c]
    /\ args c
       = [executable cfg; py "exec"; py "-w"; str_or cwd_arg (cwd cfg)]
         ++ flat_map forwarded (forward_env cfg)
         ++ e_flags (env cfg)
         ++ [id; py "bash"; py "-lc"; command]
    /\ (forall key,
          environ !! key = Some [] -> forwarded key = [py "-e"; key ++ py "="])
    /\ (forall key, environ !! key = None -> forwarded key = [])
    /\ (forall key,
          key ∈ forward_env cfg ->
          environ !! key = Some [] ->
          exists before after,
            args c = before ++ [py "-e"; key ++ py "="] ++ after).
Proof.
  intros Hs cfg environ forwarded. subst cfg environ forwarded.
  exists (exec_call (config (self σ)) (os_environ (world σ))
                    id command cwd_arg timeout_arg).
  split; [by apply execute_trace|]. split; [|split; [|split]].
  - unfold exec_call, injected_items. simpl args.
    by rewrite e_flags_app, e_flags_forwarded_items, <- !app_assoc.
  - intros key ->. by rewrite app_nil_r.
  - by intros key ->.
  - intros key Hkey Henv.
    assert (Hin : (key, []) ∈ forwarded_items (os_environ (world σ))
                                (forward_env (config (self σ))))
      by (by apply forwarded_items_elem).
    apply list_elem_of_split in Hin as (l1 & l2 & Hsplit).
    exists ([executable (config (self σ)); py "exec"; py "-w";
             str_or cwd_arg (cwd (config (self σ)))] ++ e_flags l1),
           (e_flags l2 ++ e_flags (env (config (self σ)))
            ++ [id; py "bash"; py "-lc"; command]).
    unfold exec_call, injected_items. simpl args.
    rewrite Hsplit, !e_flags_app, e_flags_cons, e_flag_empty.
    by rewrite <- !app_assoc.
Qed.


(** ** [_start_container] and [_attach_to_container] *)

(** ** [strip] and [split] *)

Lemma lstrip_by_no_lead (p : N -> bool) (s : str) :
  no_lead p (lstrip_by p s).
Proof.
  induction s as [|c r IH]; simpl; [done|].
  destruct (p c) eqn:E; [done|]. simpl. done.
Qed.

Lemma lstrip_by_fixed (p : N -> bool) (s : str) :
  no_lead p s -> lstrip_by p s = s.
Proof. destruct s as [|c r]; simpl; [done|]. by intros ->. Qed.

Lemma lstrip_by_app (p : N -> bool) (l : str) (c : N) (r : str) :
  p c = false -> lstrip_by p (l ++ c :: r) = lstrip_by p l ++ c :: r.
Proof.
  intros Hc. induction l as [|a l IH]; simpl.
  - by rewrite Hc.
  - by destruct (p a).
Qed.

Lemma rstrip_by_no_lead (p : N -> bool) (s : str) :
  no_lead p s -> no_lead p (rstrip_by p s).
Proof.
  destruct s as [|c r]; [done|]. simpl. intros Hc. unfold rstrip_by. simpl.
  rewrite (lstrip_by_app p (rev r) c []) by done.
  by rewrite rev_app_distr.
Qed.

Lemma rstrip_by_no_trail (p : N -> bool) (s : str) :
  no_lead p (rev (rstrip_by p s)).
Proof. unfold rstrip_by. rewrite rev_involutive. apply lstrip_by_no_lead. Qed.

Lemma rstrip_by_idem (p : N -> bool) (s : str) :
  rstrip_by p (rstrip_by p s) = rstrip_by p s.
Proof.
  unfold rstrip_by. rewrite rev_involutive.
  by rewrite (lstrip_by_fixed p (lstrip_by p (rev s)))
    by apply lstrip_by_no_lead.
Qed.

Lemma strip_no_lead (s : str) : no_lead isspace (strip s).
Proof. apply rstrip_by_no_lead, lstrip_by_no_lead. Qed.

Lemma strip_no_trail (s : str) : no_lead isspace (rev (strip s)).
Proof. apply rstrip_by_no_trail. Qed.

Lemma strip_idem (s : str) : strip (strip s) = strip s.
Proof.
  unfold strip at 1.
  rewrite (lstrip_by_fixed isspace (strip s)) by apply strip_no_lead.
  apply rstrip_by_idem.
Qed.

Lemma split_from_tokens (cur s : str) :
  Forall (fun c => isspace c = false) cur ->
  Forall is_token (split_from cur s).
Proof.
  revert cur. induction s as [|c r IH]; intros cur Hcur; simpl.
  - destruct cur as [|a cur']; [constructor|].
    constructor; [|constructor]. split.
    + intros E. apply (f_equal (@length N)) in E.
      rewrite length_rev in E. done.
    + by apply Forall_rev.
  - destruct (isspace c) eqn:Hc.
    + destruct cur as [|a cur']; [by apply IH|].
      constructor; [|by apply IH]. split.
      * intros E. apply (f_equal (@length N)) in E.
        rewrite length_rev in E. done.
      * by apply Forall_rev.
    + apply IH. by constructor.
Qed.

Lemma split_tokens (s : str) : Forall is_token (split s).
Proof. by apply split_from_tokens. Qed.

Lemma forwarded_items_ext (e1 e2 : gmap str str) (keys : list str) :
  (forall k, k ∈ keys -> e1 !! k = e2 !! k) ->
  forwarded_items e1 keys = forwarded_items e2 keys.
Proof.
  unfold forwarded_items.
  induction keys as [|key rest IH]; intros Hagree; [done|]. simpl.
  rewrite (Hagree key) by left.
  assert (Hrest : forall k, k ∈ rest -> e1 !! k = e2 !! k)
    by (intros k Hk; apply Hagree; by right).
  destruct (e2 !! key); [f_equal|]; by apply IH.
Qed.

#[local] Opaque py strip split shlex_join.

Lemma start_unfold σ h w1 :
  uuid4_hex (world σ) = (h, w1) ->
  _start_container σ
  = let c := start_call (config (self σ)) h in
    let name := py "minisweagent-" ++ take 8 h in
    let before :=
      trace σ ++ [EvLog DEBUG (py "Starting container with command: "
                               ++ shlex_join (args c))] ++ [EvRun c] in
    match child_process c w1 with
    | (Exited out err rc, w2) =>
        if negb (rc =? 0)
        then (Raise (CalledProcessError rc (args c) out err),
              {| self := self σ; world := w2; trace := before |})
        else (Ok tt,
              {| self := set_container_id (Some (strip out)) (self σ);
                 world := w2;
                 trace := before
                          ++ [EvLog INFO (py "Started container " ++ name
                                          ++ py " with ID " ++ strip out)] |})
    | (o, w2) => (Raise (subprocess_error c o),
                  {| self := self σ; world := w2; trace := before |})
    end.
Proof.
  intros Hu. unfold_method. rewrite Hu. simpl. unfold start_call, start_cmd.
  simpl. destruct (child_process _ w1) as [[out err rc| |msg] w2]; simpl;
    rewrite <- ?app_assoc; try done.
  destruct (rc =? 0); simpl; by rewrite <- ?app_assoc.
Qed.

Lemma attach_unfold σ id :
  _attach_to_container id σ
  = let cfg := config (self σ) in
    let c1 := check_running_call cfg id in
    let c2 := get_info_call cfg id in
    let t0 := trace σ ++ [EvLog DEBUG (py "Checking status of container "
                                       ++ id)] ++ [EvRun c1] in
    let st w t := {| self := self σ; world := w; trace := t |} in
    match child_process c1 (world σ) with
    | (Exited out err rc, w1) =>
        if negb (rc =? 0)
        then (Raise (RuntimeError
                       (py "Container '" ++ id
                        ++ py "' not found or docker error.")
                       (Some (CalledProcessError rc (args c1) out err))),
              st w1 (t0 ++ [EvLog ERROR
                              (py "Failed to inspect container " ++ id
                               ++ py ". Does it exist? Error: " ++ err)]))
        else if negb (bool_decide (strip out = py "true"))
        then (Raise (RuntimeError
                       (py "Container " ++ id
                        ++ py " is not 'running'. Please start it first.")
                       None),
              st w1 (t0 ++ [EvLog ERROR
                              (py "Container " ++ id
                               ++ py " is not in a 'running' state.")]))
        else
          match child_process c2 w1 with
          | (Exited out2 err2 rc2, w2) =>
              if negb (rc2 =? 0)
              then (Raise (CalledProcessError rc2 (args c2) out2 err2),
                    st w2 (t0 ++ [EvRun c2]))
              else
                match split (strip out2) with
                | [full_id; name] =>
                    (Ok tt,
                     {| self := set_container_id (Some full_id) (self σ);
                        world := w2;
                        trace := t0 ++ [EvRun c2]
                                 ++ [EvLog INFO
                                       (py "Successfully attached to running container "
                                        ++ lstrip_slash name ++ py " (ID: "
                                        ++ full_id ++ py ")")] |})
                | parts => (Raise (UnpackError 2 (length parts)),
                            st w2 (t0 ++ [EvRun c2]))
                end
          | (o, w2) => (Raise (subprocess_error c2 o), st w2 (t0 ++ [EvRun c2]))
          end
    | (Expired, w1) =>
        (Raise (RuntimeError (py "Timeout checking container " ++ id ++ py ".")
                             None),
         st w1 (t0 ++ [EvLog ERROR (py "Timeout while inspecting container "
                                    ++ id ++ py ".")]))
    | (NotLaunched msg, w1) => (Raise (OSError msg), st w1 t0)
    end.
Proof.
  unfold_method. unfold check_running_call, get_info_call, inspect_cmd.
  destruct (child_process _ (world σ)) as [[out err rc| |msg] w1]; simpl;
    rewrite <- ?app_assoc; try done.
  destruct (rc =? 0); simpl; rewrite <- ?app_assoc; [|done].
  destruct (bool_decide (strip out = py "true")); simpl;
    rewrite <- ?app_assoc; [|done].
  destruct (child_process _ w1) as [[out2 err2 rc2| |msg2] w2]; simpl;
    rewrite <- ?app_assoc; try done.
  destruct (rc2 =? 0); simpl; rewrite <- ?app_assoc; [|done].
  destruct (split (strip out2)) as [|a [|b [|c l]]]; simpl;
    rewrite <- ?app_assoc; done.
Qed.


(** C2 (as amended): when the child of the creation call in
    [_start_container] exits non-zero or times out, the caller receives
    the error of [subprocess.run] itself ([CalledProcessError] or
    [TimeoutExpired]).  When the child of the running-state probe in
    [_attach_to_container] exits non-zero or times out, the caller
    receives a [RuntimeError] whose message names the container; for a
    non-zero exit the original error is chained as its cause and the
    child's standard error is written to the error log. *)
Theorem start_raises_raw_attach_probe_wraps σ :
  (forall h w1 o1 w2,
     uuid4_hex (world σ) = (h, w1) ->
     child_process (start_call (config (self σ)) h) w1 = (o1, w2) ->
     failed o1 ->
     fst (_start_container σ)
     = Raise (subprocess_error (start_call (config (self σ)) h) o1)
     /\ is_subprocess_error
          (subprocess_error (start_call (config (self σ)) h) o1) = true)
  /\ (forall id o2 w3,
        child_process (check_running_call (config (self σ)) id) (world σ)
        = (o2, w3) ->
        failed o2 ->
        exists msg cause,
          fst (_attach_to_container id σ) = Raise (RuntimeError msg cause)
          /\ msg = match o2 with
                   | Expired =>
                       py "Timeout checking container " ++ id ++ py "."
                   | _ => py "Container '" ++ id
                          ++ py "' not found or docker error."
                   end
          /\ forall out err rc,
               o2 = Exited out err rc ->
               cause = Some (subprocess_error
                               (check_running_call (config (self σ)) id) o2)
               /\ EvLog ERROR (py "Failed to inspect container " ++ id
                               ++ py ". Does it exist? Error: " ++ err)
                  ∈ trace (snd (_attach_to_container id σ))).
Proof.
  split.
  - intros h w1 o1 w2 Hu Hc1 Hf1.
    rewrite (start_unfold _ _ _ Hu). simpl. rewrite Hc1.
    destruct o1 as [out err rc| |msg]; simpl in *; [|done..].
    apply Z.eqb_neq in Hf1. by rewrite Hf1.
  - intros id o2 w3 Hc2 Hf2.
    rewrite attach_unfold. simpl. rewrite Hc2.
    destruct o2 as [out err rc| |msg]; simpl in *; [| |done].
    + apply Z.eqb_neq in Hf2. rewrite Hf2. simpl.
      eexists _, _. split; [reflexivity|]. split; [reflexivity|].
      intros out' err' rc' [= <- <- <-]. split; [reflexivity|].
      rewrite !elem_of_app. right. left.
    + eexists _, _. split; [reflexivity|]. split; [reflexivity|].
      intros out err rc [=].
Qed.

(** C4: when the running-state probe exits non-zero (no such container,
    or a runtime error) or exits zero with an answer that is not "true"
    after stripping, [_attach_to_container] raises [RuntimeError] and the
    session object, its container identifier included, is what it was
    before the call. *)
Theorem attach_failure_leaves_session σ id out err rc w :
  child_process (check_running_call (config (self σ)) id) (world σ)
  = (Exited out err rc, w) ->
  rc <> 0 \/ strip out <> py "true" ->
  exists msg cause σ',
    _attach_to_container id σ = (Raise (RuntimeError msg cause), σ')
    /\ msg = (if rc =? 0
              then py "Container " ++ id
                   ++ py " is not 'running'. Please start it first."
              else py "Container '" ++ id
                   ++ py "' not found or docker error.")
    /\ self σ' = self σ
    /\ container_id (self σ') = container_id (self σ).
Proof.
  intros Hc Hbad. rewrite attach_unfold. simpl. rewrite Hc.
  destruct (rc =? 0) eqn:Hrc; simpl.
  - apply Z.eqb_eq in Hrc. destruct Hbad as [Hne|Hne]; [done|].
    rewrite bool_decide_eq_false_2 by done. simpl.
    eexists _, _, _. split; [reflexivity|]. done.
  - eexists _, _, _. split; [reflexivity|]. done.
Qed.

(** C6: [_start_container] makes exactly one child process, a
    synchronous run of
    [<executable> run -d --name minisweagent-<8 hex digits> -w <cwd>
     <run_args...> <image> sleep <container_timeout>]
    with the pull timeout as its timeout; when that child exits with
    status zero the method returns and the container identifier is the
    child's standard output, stripped. *)
Theorem start_container_command σ h w1 :
  uuid4_hex (world σ) = (h, w1) ->
  let cfg := config (self σ) in
  let c := {| args := [executable cfg; py "run"; py "-d"; py "--name";
                       py "minisweagent-" ++ take 8 h; py "-w"; cwd cfg]
                      ++ run_args cfg
                      ++ [image cfg; py "sleep"; container_timeout cfg];
              run_timeout := pull_timeout cfg;
              check := true;
              stderr_to_stdout := false |} in
  filter is_child_process (trace (snd (_start_container σ)))
  = filter is_child_process (trace σ) ++ [EvRun c]
  /\ forall out err w2,
       child_process c w1 = (Exited out err 0, w2) ->
       fst (_start_container σ) = Ok tt
       /\ container_id (self (snd (_start_container σ))) = Some (strip out).
Proof.
  intros Hu cfg c.
  assert (Ec : c = start_call (config (self σ)) h) by reflexivity.
  clearbody c. subst c cfg. rewrite (start_unfold _ _ _ Hu). cbv zeta. split.
  - destruct (child_process _ w1) as [[out err rc| |msg] w2]; simpl;
      [destruct (rc =? 0); simpl|..];
      by rewrite !filter_app, ?app_nil_r.
  - intros out err w2 Hc. by rewrite Hc.
Qed.

(** ** The identifier over sequences of calls *)

Lemma start_keeps_id σ :
  is_Some (container_id (self σ)) ->
  is_Some (container_id (self (snd (_start_container σ)))).
Proof.
  intros Hid. destruct (uuid4_hex (world σ)) as [h w1] eqn:Hu.
  rewrite (start_unfold _ _ _ Hu). simpl.
  destruct (child_process _ w1) as [[out err rc| |msg] w2]; simpl;
    [destruct (rc =? 0); simpl|..]; eauto.
Qed.

Lemma attach_keeps_id σ id :
  is_Some (container_id (self σ)) ->
  is_Some (container_id (self (snd (_attach_to_container id σ)))).
Proof.
  intros Hid. rewrite attach_unfold. simpl.
  destruct (child_process _ (world σ)) as [[out err rc| |msg] w1]; simpl;
    try done.
  destruct (rc =? 0); simpl; [|done].
  destruct (bool_decide _); simpl; [|done].
  destruct (child_process _ w1) as [[out2 err2 rc2| |msg2] w2]; simpl;
    try done.
  destruct (rc2 =? 0); simpl; [|done].
  destruct (split (strip out2)) as [|a [|b [|c l]]]; simpl; eauto.
Qed.

Lemma cleanup_eq σ :
  cleanup σ
  = match container_id (self σ) with
    | None => (Ok tt, σ)
    | Some id =>
        let cmd := cleanup_cmd (executable (config (self σ))) id in
        let after w := {| self := self σ; world := w;
                          trace := trace σ ++ [EvPopen cmd] |} in
        match popen_process cmd (world σ) with
        | (Spawned, w) => (Ok tt, after w)
        | (SpawnRaised e, w) => (Raise e, after w)
        end
    end.
Proof.
  unfold_method. destruct (container_id (self σ)) as [id|]; [|done].
  by destruct (popen_process _ (world σ)) as [[|e] w].
Qed.

Lemma cleanup_self σ : self (snd (cleanup σ)) = self σ.
Proof.
  rewrite cleanup_eq. destruct (container_id (self σ)) as [id|]; [|done].
  cbv zeta. by destruct (popen_process _ (world σ)) as [[|e] w].
Qed.

Lemma cleanup_trace σ :
  trace (snd (cleanup σ))
  = trace σ
    ++ match container_id (self σ) with
       | Some id => [EvPopen (cleanup_cmd (executable (config (self σ))) id)]
       | None => []
       end.
Proof.
  rewrite cleanup_eq. destruct (container_id (self σ)) as [id|].
  - cbv zeta. by destruct (popen_process _ (world σ)) as [[|e] w].
  - simpl. by rewrite app_nil_r.
Qed.

Lemma run_op_keeps_id (o : op) σ :
  is_Some (container_id (self σ)) ->
  is_Some (container_id (self (run_op o σ))).
Proof.
  destruct o; simpl; intros Hid.
  - by apply start_keeps_id.
  - by apply attach_keeps_id.
  - by rewrite execute_self.
  - by rewrite cleanup_self.
Qed.

(** C7: over every sequence of calls of start, attach, execute and
    cleanup, whatever each of them returns or raises, a container
    identifier that is set stays set.  In particular an [execute] that
    raises [TimeoutExpired] leaves the session object as it was, so a
    later [execute] does not fail its assertion; and [cleanup] leaves the
    session object as it was. *)
Theorem identifier_never_cleared (os : list op) σ :
  is_Some (container_id (self σ)) ->
  is_Some (container_id (self (run_ops os σ)))
  /\ self (snd (cleanup σ)) = self σ
  /\ forall command cwd_arg timeout_arg cmd t σ',
       execute command cwd_arg timeout_arg σ = (Raise (TimeoutExpired cmd t), σ') ->
       self σ' = self σ
       /\ forall command' cwd_arg' timeout_arg' msg,
            fst (execute command' cwd_arg' timeout_arg' σ')
            <> Raise (AssertionError msg).
Proof.
  intros Hid. split; [|split].
  - revert σ Hid. induction os as [|o os IH]; intros σ Hid; [done|].
    simpl. apply IH. by apply run_op_keeps_id.
  - apply cleanup_self.
  - intros command cwd_arg timeout_arg cmd t σ' Hex.
    assert (Hself : self σ' = self σ).
    { pose proof (execute_self command cwd_arg timeout_arg σ) as E.
      by rewrite Hex in E. }
    split; [done|].
    intros command' cwd_arg' timeout_arg' msg.
    destruct (container_id (self σ)) as [[|c0 id']|] eqn:Hc.
    + unfold_execute in Hex. by rewrite Hc in Hex.
    + assert (Hs : started σ' (c0 :: id')) by (split; [by rewrite Hself|done]).
      rewrite (execute_started _ _ _ _ _ Hs). simpl.
      by destruct (child_process _ (world σ')) as [[| |] ?].
    + by destruct Hid.
Qed.

(** C8 (as amended): with no identifier [cleanup] returns at once and
    changes nothing.  With an identifier it makes one [Popen] call for
    the stop-or-force-remove pipeline and nothing else; it returns when
    that call starts the shell, whose outcome it never reads, and it
    passes on to the caller what that call raises.  After any number of
    calls, however each ended, the session object is what it was and no
    synchronous child has run; where the shell can always be started, a
    further call returns again. *)
Theorem cleanup_returns_unless_popen_raises σ (n : nat) :
  (container_id (self σ) = None -> cleanup σ = (Ok tt, σ))
  /\ (forall id o w,
        container_id (self σ) = Some id ->
        popen_process (py "(timeout 60 " ++ executable (config (self σ))
                       ++ py " stop " ++ id ++ py " || "
                       ++ executable (config (self σ))
                       ++ py " rm -f " ++ id ++ py ") >/dev/null 2>&1 &")
                      (world σ) = (o, w) ->
        cleanup σ
        = (match o with
           | Spawned => Ok tt
           | SpawnRaised e => Raise e
           end,
           {| self := self σ; world := w;
              trace := trace σ
                       ++ [EvPopen (py "(timeout 60 "
                                    ++ executable (config (self σ))
                                    ++ py " stop " ++ id ++ py " || "
                                    ++ executable (config (self σ))
                                    ++ py " rm -f " ++ id
                                    ++ py ") >/dev/null 2>&1 &")] |}))
  /\ (let σn := run_ops (replicate n OpCleanup) σ in
      self σn = self σ
      /\ filter is_run (trace σn) = filter is_run (trace σ)
      /\ ((forall cmd w, fst (popen_process cmd w) = Spawned) ->
          fst (cleanup σn) = Ok tt)).
Proof.
  split; [|split].
  - intros Hid. rewrite cleanup_eq. by rewrite Hid.
  - intros id o w Hid Hp. rewrite cleanup_eq, Hid. cbv zeta.
    fold (cleanup_cmd (executable (config (self σ))) id) in Hp |- *.
    rewrite Hp. by destruct o.
  - cbv zeta.
    assert (Hn : forall m σ0,
               self (run_ops (replicate m OpCleanup) σ0) = self σ0
               /\ filter is_run (trace (run_ops (replicate m OpCleanup) σ0))
                  = filter is_run (trace σ0)).
    { induction m as [|m IH]; intros σ0; [done|].
      simpl. unfold_run_ops. simpl.
      destruct (IH (snd (cleanup σ0))) as [E1 E2]. rewrite E1, E2.
      rewrite cleanup_self, cleanup_trace. split; [done|].
      rewrite filter_app. destruct (container_id (self σ0)); simpl;
        by rewrite app_nil_r. }
    destruct (Hn n σ) as [E1 E2]. split; [done|]. split; [done|].
    intros Hspawn. rewrite cleanup_eq.
    destruct (container_id _) as [id|]; [|done]. cbv zeta.
    pose proof (Hspawn (cleanup_cmd
                          (executable
                             (config (self (run_ops (replicate n OpCleanup) σ))))
                          id)
                       (world (run_ops (replicate n OpCleanup) σ))) as Hs.
    destruct (popen_process _ _) as [[|e] w]; [done|]. simpl in Hs. done.
Qed.


(** ** What every operation leaves alone *)

Lemma runs_only_app (exe : str) (t1 t2 : list event) :
  runs_only exe (t1 ++ t2) <-> runs_only exe t1 /\ runs_only exe t2.
Proof. apply Forall_app. Qed.

Lemma count_popen_app (t1 t2 : list event) :
  count_popen (t1 ++ t2) = (count_popen t1 + count_popen t2)%nat.
Proof. unfold count_popen. by rewrite filter_app, length_app. Qed.

Ltac frame_solve :=
  unfold frame_of, count_popen; simpl; split; [done|]; split;
  [ rewrite ?filter_app, ?length_app; simpl; lia
  | intros Hruns; rewrite ?runs_only_app; repeat split; try done;
    repeat constructor ].

Lemma start_frame σ : frame_of σ (snd (_start_container σ)) 0.
Proof.
  destruct (uuid4_hex (world σ)) as [h w1] eqn:Hu.
  rewrite (start_unfold _ _ _ Hu). cbv zeta.
  destruct (child_process _ w1) as [[out err rc| |msg] w2];
    [destruct (rc =? 0)|..]; frame_solve.
Qed.

Lemma attach_frame σ id : frame_of σ (snd (_attach_to_container id σ)) 0.
Proof.
  rewrite attach_unfold. cbv zeta.
  destruct (child_process _ (world σ)) as [[out err rc| |msg] w1];
    [|frame_solve..].
  destruct (rc =? 0); [|frame_solve].
  destruct (bool_decide _); [|frame_solve].
  destruct (child_process _ w1) as [[out2 err2 rc2| |msg2] w2];
    [|frame_solve..].
  destruct (rc2 =? 0); [|frame_solve].
  destruct (split (strip out2)) as [|a [|b [|c l]]]; frame_solve.
Qed.

Lemma execute_frame command cwd_arg timeout_arg σ :
  frame_of σ (snd (execute command cwd_arg timeout_arg σ)) 0.
Proof.
  destruct (container_id (self σ)) as [[|c0 id']|] eqn:Hid.
  - unfold_execute. rewrite Hid. frame_solve.
  - rewrite (execute_started _ _ _ _ (c0 :: id')); [|by split]. cbv zeta.
    unfold after_run.
    destruct (child_process _ _) as [[| |] ?]; frame_solve.
  - unfold_execute. rewrite Hid. frame_solve.
Qed.

Lemma cleanup_frame σ :
  frame_of σ (snd (cleanup σ))
    (match container_id (self σ) with Some _ => 1 | None => 0 end).
Proof.
  rewrite cleanup_eq. destruct (container_id (self σ)) as [id|];
    [|frame_solve].
  cbv zeta. destruct (popen_process _ (world σ)) as [[|e] w]; frame_solve.
Qed.

(** ** Further properties of attaching and starting *)

(** X1: when the running-state probe answers "true" and the second probe
    prints two tokens, [_attach_to_container] returns, the session's
    identifier becomes the first token (the full id, whatever name or
    prefix was passed in), and the only child processes were the two
    inspect calls, in that order, with a 10 second timeout each. *)
Theorem attach_stores_full_id σ id out1 err1 w1 out2 err2 w2 full_id name :
  child_process (check_running_call (config (self σ)) id) (world σ)
  = (Exited out1 err1 0, w1) ->
  strip out1 = py "true" ->
  child_process (get_info_call (config (self σ)) id) w1
  = (Exited out2 err2 0, w2) ->
  split (strip out2) = [full_id; name] ->
  fst (_attach_to_container id σ) = Ok tt
  /\ container_id (self (snd (_attach_to_container id σ))) = Some full_id
  /\ filter is_child_process (trace (snd (_attach_to_container id σ)))
     = filter is_child_process (trace σ)
       ++ [EvRun {| args := [executable (config (self σ)); py "inspect";
                             py "-f"; py "{{.State.Running}}"; id];
                    run_timeout := 10; check := true;
                    stderr_to_stdout := false |};
           EvRun {| args := [executable (config (self σ)); py "inspect";
                             py "-f"; py "{{.Id}} {{.Name}}"; id];
                    run_timeout := 10; check := true;
                    stderr_to_stdout := false |}].
Proof.
  intros Hc1 Htrue Hc2 Hsplit. rewrite attach_unfold. cbv zeta.
  rewrite Hc1. simpl. rewrite bool_decide_eq_true_2 by done. simpl.
  rewrite Hc2. simpl. rewrite Hsplit. simpl.
  split; [done|]. split; [done|].
  by rewrite !filter_app, <- !app_assoc.
Qed.

(** X2: when the running-state probe answers "true" and the second
    probe then exits non-zero or times out, the caller receives the
    error of [subprocess.run] itself, and the session object is what it
    was. *)
Theorem attach_second_probe_failure_is_raw σ id out1 err1 w1 o2 w2 :
  child_process (check_running_call (config (self σ)) id) (world σ)
  = (Exited out1 err1 0, w1) ->
  strip out1 = py "true" ->
  child_process (get_info_call (config (self σ)) id) w1 = (o2, w2) ->
  failed o2 ->
  fst (_attach_to_container id σ)
  = Raise (subprocess_error (get_info_call (config (self σ)) id) o2)
  /\ is_subprocess_error
       (subprocess_error (get_info_call (config (self σ)) id) o2) = true
  /\ self (snd (_attach_to_container id σ)) = self σ.
Proof.
  intros Hc1 Htrue Hc2 Hf. rewrite attach_unfold. cbv zeta.
  rewrite Hc1. simpl. rewrite bool_decide_eq_true_2 by done. simpl.
  rewrite Hc2. destruct o2 as [out2 err2 rc2| |msg]; simpl in *; [|done..].
  apply Z.eqb_neq in Hf. by rewrite Hf.
Qed.

(** X3: when both probes exit with status zero but the second prints a
    number of tokens other than two, the unpacking fails with that
    number, after both child processes have run, and the identifier is
    not assigned. *)
Theorem attach_wrong_token_count σ id out1 err1 w1 out2 err2 w2 :
  child_process (check_running_call (config (self σ)) id) (world σ)
  = (Exited out1 err1 0, w1) ->
  strip out1 = py "true" ->
  child_process (get_info_call (config (self σ)) id) w1
  = (Exited out2 err2 0, w2) ->
  length (split (strip out2)) <> 2%nat ->
  fst (_attach_to_container id σ)
  = Raise (UnpackError 2 (length (split (strip out2))))
  /\ self (snd (_attach_to_container id σ)) = self σ
  /\ length (filter is_run (trace (snd (_attach_to_container id σ))))
     = (length (filter is_run (trace σ)) + 2)%nat.
Proof.
  intros Hc1 Htrue Hc2 Hlen. rewrite attach_unfold. cbv zeta.
  rewrite Hc1. simpl. rewrite bool_decide_eq_true_2 by done. simpl.
  rewrite Hc2. simpl.
  destruct (split (strip out2)) as [|a [|b [|c l]]]; simpl in *; try done;
    rewrite !filter_app, !length_app; simpl; repeat split; lia.
Qed.

(** X4: whenever [_attach_to_container] returns, the identifier it
    stored is a token (not empty, no whitespace in it), so no later
    [execute] fails the "Container not started" assertion. *)
Theorem attach_ok_then_execute_passes σ id :
  fst (_attach_to_container id σ) = Ok tt ->
  exists cid,
    container_id (self (snd (_attach_to_container id σ))) = Some cid
    /\ is_token cid
    /\ forall command cwd_arg timeout_arg msg,
         fst (execute command cwd_arg timeout_arg
                (snd (_attach_to_container id σ)))
         <> Raise (AssertionError msg).
Proof.
  rewrite attach_unfold. cbv zeta.
  destruct (child_process _ (world σ)) as [[out err rc| |msg] w1];
    simpl; try done.
  destruct (rc =? 0); simpl; [|done].
  destruct (bool_decide _); simpl; [|done].
  destruct (child_process _ w1) as [[out2 err2 rc2| |msg2] w2];
    simpl; try done.
  destruct (rc2 =? 0); simpl; [|done].
  pose proof (split_tokens (strip out2)) as Htok.
  destruct (split (strip out2)) as [|a [|b [|c l]]]; simpl; try done.
  intros _. exists a. split; [done|].
  apply Forall_cons in Htok as [Ha _]. split; [done|].
  intros command cwd_arg timeout_arg msg.
  match goal with |- context [execute _ _ _ ?s] => set (σ' := s) end.
  assert (Hs : started σ' a) by (split; [done|apply Ha]).
  rewrite (execute_started _ _ _ _ _ Hs). simpl.
  by destruct (child_process _ _) as [[| |] ?].
Qed.

(** X5: when the creation child exits with status zero but prints
    nothing except whitespace, [_start_container] returns with the empty
    string as identifier.  Every later [execute] then fails the
    assertion without running anything, while [cleanup] still detaches
    its pipeline, with an empty container argument. *)
Theorem start_blank_output σ h w1 out err w2 :
  uuid4_hex (world σ) = (h, w1) ->
  child_process (start_call (config (self σ)) h) w1
  = (Exited out err 0, w2) ->
  strip out = [] ->
  let σ' := snd (_start_container σ) in
  fst (_start_container σ) = Ok tt
  /\ container_id (self σ') = Some []
  /\ (forall command cwd_arg timeout_arg,
        execute command cwd_arg timeout_arg σ'
        = (Raise (AssertionError (py "Container not started")), σ'))
  /\ trace (snd (cleanup σ'))
     = trace σ'
       ++ [EvPopen (cleanup_cmd (executable (config (self σ))) [])].
Proof.
  intros Hu Hc Hblank σ'. subst σ'. rewrite cleanup_trace.
  rewrite (start_unfold _ _ _ Hu). cbv zeta. rewrite Hc. simpl.
  rewrite Hblank. split; [done|]. split; [done|]. split; [|done].
  intros command cwd_arg timeout_arg. by unfold_execute.
Qed.

(** X6: whenever [_start_container] returns, the identifier it stored
    has no whitespace at either end: stripping it again changes
    nothing. *)
Theorem start_ok_identifier_is_stripped σ :
  fst (_start_container σ) = Ok tt ->
  exists cid,
    container_id (self (snd (_start_container σ))) = Some cid
    /\ strip cid = cid
    /\ no_lead isspace cid
    /\ no_lead isspace (rev cid).
Proof.
  destruct (uuid4_hex (world σ)) as [h w1] eqn:Hu.
  rewrite (start_unfold _ _ _ Hu). cbv zeta.
  destruct (child_process _ w1) as [[out err rc| |msg] w2]; simpl; try done.
  destruct (rc =? 0); simpl; [|done].
  intros _. exists (strip out). split; [done|].
  split; [apply strip_idem|]. split; [apply strip_no_lead|].
  apply strip_no_trail.
Qed.

(** ** Further properties of [execute] *)

(** X7: a non-empty [cwd] and a non-zero [timeout] (negative ones
    included) are passed on as given: the directory after [-w] and the
    timeout of the run are the arguments, not the configured values. *)
Theorem execute_given_arguments_are_used command cwd_arg (t : Z) σ id :
  started σ id ->
  cwd_arg <> [] ->
  t <> 0 ->
  trace (snd (execute command cwd_arg (Some t) σ))
  = trace σ
    ++ [EvRun {| args := [executable (config (self σ)); py "exec"; py "-w";
                          cwd_arg]
                         ++ e_flags (injected_items (config (self σ))
                                       (os_environ (world σ)))
                         ++ [id; py "bash"; py "-lc"; command];
                 run_timeout := t;
                 check := false;
                 stderr_to_stdout := true |}].
Proof.
  intros Hs Hcwd Ht. rewrite (execute_trace _ _ _ _ _ Hs).
  unfold exec_call. simpl. apply Z.eqb_neq in Ht. rewrite Ht.
  by destruct cwd_arg.
Qed.

(** X8: the exec invocation depends on the host environment only
    through the names listed in [forward_env]: two host environments that
    agree on those names give the same invocation, whatever else they
    define. *)
Theorem execute_reads_only_forwarded_names command cwd_arg timeout_arg
  σ1 σ2 id :
  self σ1 = self σ2 ->
  started σ1 id ->
  (forall k, k ∈ forward_env (config (self σ1)) ->
             os_environ (world σ1) !! k = os_environ (world σ2) !! k) ->
  exists c,
    trace (snd (execute command cwd_arg timeout_arg σ1)) = trace σ1 ++ [EvRun c]
    /\ trace (snd (execute command cwd_arg timeout_arg σ2))
       = trace σ2 ++ [EvRun c].
Proof.
  intros Hself Hs1 Hagree.
  assert (Hs2 : started σ2 id) by (destruct Hs1; split; congruence).
  eexists. split; [by apply execute_trace|].
  rewrite (execute_trace _ _ _ _ _ Hs2). do 2 f_equal.
  unfold exec_call, injected_items. rewrite <- Hself.
  by rewrite (forwarded_items_ext _ _ _ Hagree).
Qed.

(** X9: on a started session, when the child of [execute] does not
    finish in time the caller receives [TimeoutExpired] carrying the
    exec argument vector and the timeout in force (the argument when it
    is not zero, else the configured one), and when the child cannot be
    launched the caller receives that [OSError]; either way the session
    object is unchanged and the call is the single event added. *)
Theorem execute_timeout_and_launch_failure_propagate command cwd_arg
  timeout_arg σ id :
  started σ id ->
  let c := exec_call (config (self σ)) (os_environ (world σ)) id command
                     cwd_arg timeout_arg in
  run_timeout c = match timeout_arg with
                  | Some t => if t =? 0 then timeout (config (self σ)) else t
                  | None => timeout (config (self σ))
                  end
  /\ (forall w,
        child_process c (world σ) = (Expired, w) ->
        execute command cwd_arg timeout_arg σ
        = (Raise (TimeoutExpired (args c) (run_timeout c)),
           {| self := self σ; world := w; trace := trace σ ++ [EvRun c] |}))
  /\ (forall msg w,
        child_process c (world σ) = (NotLaunched msg, w) ->
        execute command cwd_arg timeout_arg σ
        = (Raise (OSError msg),
           {| self := self σ; world := w; trace := trace σ ++ [EvRun c] |})).
Proof.
  intros Hs c. subst c. split; [done|]. split.
  - intros w Hc. rewrite (execute_started _ _ _ _ _ Hs). cbv zeta.
    by rewrite Hc.
  - intros msg w Hc. rewrite (execute_started _ _ _ _ _ Hs). cbv zeta.
    by rewrite Hc.
Qed.

(** ** Construction, disposal and the configuration *)

Lemma run_op_frame (o : op) σ :
  frame_of σ (run_op o σ)
    (if is_cleanup_op o
     then match container_id (self σ) with Some _ => 1 | None => 0 end
     else 0).
Proof.
  destruct o; simpl.
  - apply start_frame.
  - apply attach_frame.
  - apply execute_frame.
  - apply cleanup_frame.
Qed.

Lemma count_cleanups_cons (o : op) (os : list op) :
  count_cleanups (o :: os)
  = ((if is_cleanup_op o then 1 else 0) + count_cleanups os)%nat.
Proof.
  unfold count_cleanups. rewrite filter_cons.
  destruct o; simpl; reflexivity.
Qed.

Lemma run_ops_config (os : list op) σ :
  config (self (run_ops os σ)) = config (self σ).
Proof.
  revert σ. induction os as [|o os IH]; intros σ; [done|].
  simpl. unfold_run_ops. simpl. rewrite IH. apply run_op_frame.
Qed.

Lemma cleanup_set σ id :
  container_id (self σ) = Some id ->
  trace (snd (cleanup σ))
  = trace σ ++ [EvPopen (cleanup_cmd (executable (config (self σ))) id)]
  /\ self (snd (cleanup σ)) = self σ
  /\ forall w,
       popen_process (cleanup_cmd (executable (config (self σ))) id) (world σ)
       = (Spawned, w) ->
       cleanup σ
       = (Ok tt,
          {| self := self σ; world := w;
             trace := trace σ
                      ++ [EvPopen (cleanup_cmd (executable (config (self σ)))
                                               id)] |}).
Proof.
  intros Hid. split; [|split].
  - by rewrite cleanup_trace, Hid.
  - apply cleanup_self.
  - intros w Hp. rewrite cleanup_eq, Hid. cbv zeta. by rewrite Hp.
Qed.

(** X10: after [__init__] the session holds the configuration it was
    given.  If [__init__] raised, the identifier is unset and [__del__]
    does nothing at all; if it returned, the identifier is set and
    [__del__] makes one [Popen] call, for the stop-or-remove pipeline of
    that identifier, leaves the session object alone, and returns when
    the shell is started. *)
Theorem init_outcome_decides_del (cfg : DockerEnvironmentConfig) σ :
  let σ' := snd (__init__ child_process uuid4_hex cfg σ) in
  config (self σ') = cfg
  /\ match fst (__init__ child_process uuid4_hex cfg σ) with
     | Raise _ =>
         container_id (self σ') = None /\ __del__ σ' = (Ok tt, σ')
     | Ok _ =>
         exists cid,
           container_id (self σ') = Some cid
           /\ trace (snd (__del__ σ'))
              = trace σ' ++ [EvPopen (cleanup_cmd (executable cfg) cid)]
           /\ self (snd (__del__ σ')) = self σ'
           /\ forall w,
                popen_process (cleanup_cmd (executable cfg) cid) (world σ')
                = (Spawned, w) ->
                __del__ σ'
                = (Ok tt,
                   {| self := self σ'; world := w;
                      trace := trace σ'
                               ++ [EvPopen (cleanup_cmd (executable cfg)
                                                        cid)] |})
     end.
Proof.
  unfold_init_del. cbv zeta.
  set (σ0 := {| self := {| config := cfg; container_id := None |};
                world := world σ; trace := trace σ |}).
  assert (Hraise : forall w t,
            config (self {| self := self σ0; world := w; trace := t |}) = cfg
            /\ container_id
                 (self {| self := self σ0; world := w; trace := t |})
               = None
               /\ cleanup {| self := self σ0; world := w; trace := t |}
                  = (Ok tt, {| self := self σ0; world := w; trace := t |})).
  { intros w t. split; [done|]. split; [done|]. by rewrite cleanup_eq. }
  assert (Hok : forall cid w t,
            let σ1 := {| self := set_container_id (Some cid) (self σ0);
                         world := w; trace := t |} in
            config (self σ1) = cfg
            /\ exists cid',
                 container_id (self σ1) = Some cid'
                 /\ trace (snd (cleanup σ1))
                    = trace σ1 ++ [EvPopen (cleanup_cmd (executable cfg) cid')]
                 /\ self (snd (cleanup σ1)) = self σ1
                 /\ forall w',
                      popen_process (cleanup_cmd (executable cfg) cid')
                                    (world σ1) = (Spawned, w') ->
                      cleanup σ1
                      = (Ok tt,
                         {| self := self σ1; world := w';
                            trace := trace σ1
                                     ++ [EvPopen (cleanup_cmd (executable cfg)
                                                              cid')] |})).
  { intros cid w t σ1. split; [done|]. exists cid. split; [done|].
    by apply (cleanup_set σ1 cid). }
  destruct (cfg_container_id cfg) as [id|].
  - rewrite attach_unfold. cbv zeta.
    destruct (child_process _ (world σ0)) as [[out err rc| |msg] w1];
      [|exact (Hraise _ _)..].
    destruct (rc =? 0); [|exact (Hraise _ _)].
    destruct (bool_decide _); [|exact (Hraise _ _)].
    destruct (child_process _ w1) as [[out2 err2 rc2| |msg2] w2];
      [|exact (Hraise _ _)..].
    destruct (rc2 =? 0); [|exact (Hraise _ _)].
    destruct (split (strip out2)) as [|a [|b [|c l]]];
      try exact (Hraise _ _). exact (Hok _ _ _).
  - destruct (uuid4_hex (world σ0)) as [h w1] eqn:Hu.
    rewrite (start_unfold _ _ _ Hu). cbv zeta.
    destruct (child_process _ w1) as [[out err rc| |msg] w2];
      [|exact (Hraise _ _)..].
    destruct (rc =? 0); [exact (Hok _ _ _)|exact (Hraise _ _)].
Qed.

(** X11: with a [container_id] in the configuration, [__init__] creates
    nothing: its child processes are the running-state probe of that
    identifier, followed at most by the identifier probe. *)
Theorem init_attach_mode_only_inspects (cfg : DockerEnvironmentConfig) id σ :
  cfg_container_id cfg = Some id ->
  let σ' := snd (__init__ child_process uuid4_hex cfg σ) in
  filter is_child_process (trace σ')
  = filter is_child_process (trace σ) ++ [EvRun (check_running_call cfg id)]
  \/ filter is_child_process (trace σ')
     = filter is_child_process (trace σ)
       ++ [EvRun (check_running_call cfg id); EvRun (get_info_call cfg id)].
Proof.
  intros Hid. unfold __init__. cbv zeta. rewrite Hid.
  set (σ0 := {| self := {| config := cfg; container_id := None |};
                world := world σ; trace := trace σ |}).
  rewrite attach_unfold. cbv zeta.
  destruct (child_process _ (world σ0)) as [[out err rc| |msg] w1];
    [|left; simpl; by rewrite !filter_app, ?app_nil_r..].
  destruct (rc =? 0);
    [|left; simpl; by rewrite !filter_app, ?app_nil_r].
  destruct (bool_decide _);
    [|left; simpl; by rewrite !filter_app, ?app_nil_r].
  right.
  destruct (child_process _ w1) as [[out2 err2 rc2| |msg2] w2];
    [|simpl; by rewrite !filter_app, <- ?app_assoc, ?app_nil_r..].
  destruct (rc2 =? 0);
    [|simpl; by rewrite !filter_app, <- ?app_assoc, ?app_nil_r].
  destruct (split (strip out2)) as [|a [|b [|c l]]];
    simpl; by rewrite !filter_app, <- ?app_assoc, ?app_nil_r.
Qed.

(** X12: no sequence of start, attach, execute and cleanup calls changes
    what [get_template_vars] returns: it is the configuration as given,
    under the ten field names, and reading it has no effect.  Its
    'container_id' is the configured one (None when a container was
    started), not the identifier the session holds. *)
Theorem template_vars_are_the_configuration (os : list op) σ :
  get_template_vars (run_ops os σ)
  = (Ok (asdict (config (self σ))), run_ops os σ)
  /\ map fst (asdict (config (self σ)))
     = [py "image"; py "cwd"; py "env"; py "forward_env"; py "timeout";
        py "executable"; py "run_args"; py "container_timeout";
        py "pull_timeout"; py "container_id"]
  /\ dict_get (asdict (config (self σ))) (py "container_id")
     = Some (match cfg_container_id (config (self σ)) with
             | Some id => PStr id
             | None => PNone
             end).
Proof.
  split; [|split].
  - unfold get_template_vars, bind, get_self, ret.
    by rewrite run_ops_config.
  - done.
  - by vm_compute.
Qed.

(** X13: a session constructed from an image alone starts a container
    with the defaults: the executable is the value of
    MSWEA_DOCKER_EXECUTABLE at import time when that variable is defined
    (even as the empty string) and "docker" otherwise, the working
    directory is "/", the extra argument is "--rm", the container sleeps
    "2h" and the creation may take 120 seconds. *)
Theorem new_with_image_only_uses_defaults (import_environ : gmap str str)
  (img : str) σ :
  let exe := match import_environ !! py "MSWEA_DOCKER_EXECUTABLE" with
             | Some v => v
             | None => py "docker"
             end in
  filter is_child_process
    (trace (snd (DockerEnvironment_new child_process uuid4_hex import_environ
                   (only_image img) σ)))
  = filter is_child_process (trace σ)
    ++ [EvRun {| args := [exe; py "run"; py "-d"; py "--name";
                          py "minisweagent-"
                          ++ take 8 (fst (uuid4_hex (world σ)));
                          py "-w"; py "/"; py "--rm"; img; py "sleep";
                          py "2h"];
                 run_timeout := 120;
                 check := true;
                 stderr_to_stdout := false |}].
Proof.
  unfold DockerEnvironment_new, __init__. cbv zeta.
  set (cfg := config_class import_environ (only_image img)).
  change (cfg_container_id cfg) with (@None str). cbv iota.
  set (σ0 := {| self := {| config := cfg; container_id := None |};
                world := world σ; trace := trace σ |}).
  destruct (uuid4_hex (world σ)) as [h w1] eqn:Hu.
  rewrite (start_unfold σ0 h w1 Hu). cbv zeta.
  destruct (child_process _ w1) as [[out err rc| |msg] w2];
    [destruct (rc =? 0)|..];
    simpl; by rewrite !filter_app, ?app_nil_r.
Qed.

(** ** Invariants over sequences of calls *)

(** X14: whatever calls are made and however they end, every
    synchronous child process runs the configured executable: if that
    holds of the trace so far, it holds of the trace afterwards. *)
Theorem every_run_uses_the_executable (os : list op) σ :
  runs_only (executable (config (self σ))) (trace σ) ->
  runs_only (executable (config (self σ))) (trace (run_ops os σ)).
Proof.
  revert σ. induction os as [|o os IH]; intros σ Hruns; [done|].
  simpl. unfold_run_ops. simpl.
  destruct (run_op_frame o σ) as (Hcfg & _ & Hkeep).
  rewrite <- Hcfg. apply IH. rewrite Hcfg. by apply Hkeep.
Qed.

(** X15: on a session whose identifier is set, every [cleanup] call
    detaches one more stop-or-remove pipeline (the identifier is never
    cleared, so a second call does not find the work done), and no other
    call detaches anything. *)
Theorem each_cleanup_detaches_again (os : list op) σ :
  is_Some (container_id (self σ)) ->
  count_popen (trace (run_ops os σ))
  = (count_popen (trace σ) + count_cleanups os)%nat.
Proof.
  revert σ. induction os as [|o os IH]; intros σ Hid.
  - unfold count_cleanups. simpl. lia.
  - simpl. unfold_run_ops. simpl.
    rewrite (IH (run_op o σ)) by (by apply run_op_keeps_id).
    destruct (run_op_frame o σ) as (_ & Hcount & _). rewrite Hcount.
    destruct Hid as [cid Hcid]. rewrite Hcid, count_cleanups_cons.
    destruct (is_cleanup_op o); lia.
Qed.

(** X16: a start that raises, for whatever reason, has not touched the
    session object, and neither has an attach that raises: the
    identifier is assigned only on the path that returns. *)
Theorem failed_setup_leaves_session σ :
  (forall e,
     fst (_start_container σ) = Raise e ->
     self (snd (_start_container σ)) = self σ)
  /\ (forall id e,
        fst (_attach_to_container id σ) = Raise e ->
        self (snd (_attach_to_container id σ)) = self σ).
Proof.
  split.
  - intros e. destruct (uuid4_hex (world σ)) as [h w1] eqn:Hu.
    rewrite (start_unfold _ _ _ Hu). cbv zeta.
    destruct (child_process _ w1) as [[out err rc| |msg] w2]; try done.
    by destruct (rc =? 0).
  - intros id e. rewrite attach_unfold. cbv zeta.
    destruct (child_process _ (world σ)) as [[out err rc| |msg] w1];
      try done.
    destruct (rc =? 0); [|done].
    destruct (bool_decide _); [|done].
    destruct (child_process _ w1) as [[out2 err2 rc2| |msg2] w2];
      try done.
    destruct (rc2 =? 0); [|done].
    by destruct (split (strip out2)) as [|a [|b [|c l]]].
Qed.

End Properties.

(** * The methods on concrete inputs *)

(** The string functions agree with Python on a few inputs. *)
Example strip_example :
  strip ([32; 9]%N ++ py "c0ffee" ++ [13; 10]%N) = py "c0ffee"
  /\ strip (py "not running") = py "not running"
  /\ strip [160; 8195; 10]%N = [].
Proof. by vm_compute. Qed.

Example split_example :
  split (py "0123abcd /my-container") = [py "0123abcd"; py "/my-container"]
  /\ split (py "  a   b c ") = [py "a"; py "b"; py "c"]
  /\ lstrip_slash (py "/my-container") = py "my-container".
Proof. by vm_compute. Qed.

Example shlex_join_example :
  shlex_join [py "docker"; py "run"; py "-w"; py "/my dir"; py "it's"; []]
  = py "docker run -w '/my dir' 'it'" ++ [34; 39; 34]%N ++ py "'s' ''".
Proof. by vm_compute. Qed.

(** C1, the claim as stated, at [execute("exit 7")]: the call returns a
    dictionary with 'output' empty and 'returncode' 7; it has no key
    'exit_code'. *)
Lemma execute_exit_7_has_no_exit_code :
  exists d σ',
    execute host_child environ (py "exit 7") [] None
      (example_sys (Some (py "c0ffee")) [Exited [] [] 7]) = (Ok d, σ')
    /\ d = <[py "returncode" := VInt 7]> (<[py "output" := VStr []]> ∅)
    /\ d !! py "exit_code" = None
    /\ dom d <> {[py "output"; py "exit_code"]}.
Proof.
  exists (<[py "returncode" := VInt 7]> (<[py "output" := VStr []]> ∅)).
  eexists. split; [by vm_compute|]. split; [done|].
  assert (Hnone : (<[py "returncode" := VInt 7]>
                     (<[py "output" := VStr []]> (∅ : gmap str pyval)))
                  !! py "exit_code" = None) by (by vm_compute).
  split; [exact Hnone|]. intros Hdom.
  apply not_elem_of_dom in Hnone. apply Hnone. rewrite Hdom. set_solver.
Qed.

Lemma execute_returns_output_and_returncode_witness :
  exists d σ',
    execute host_child environ (py "exit 7") [] None
      (example_sys (Some (py "c0ffee")) [Exited [] [] 7]) = (Ok d, σ')
    /\ d !! py "output" = Some (VStr [])
    /\ d !! py "returncode" = Some (VInt 7).
Proof.
  apply (proj2 (execute_returns_output_and_returncode host_child environ
                  (py "exit 7") [] None
                  (example_sys (Some (py "c0ffee")) [Exited [] [] 7]))
               (py "c0ffee") [] [] 7 (example_host [])).
  - split; [reflexivity|]. vm_compute. discriminate.
  - vm_compute. reflexivity.
Defined.

(** C2, the claim as stated, at a start whose creation child exits 125:
    the caller receives the [CalledProcessError] of [subprocess.run],
    not a wrapping error. *)
Lemma start_failure_is_not_wrapped :
  fst (_start_container host_child host_uuid
         (example_sys None [Exited [] (py "pull access denied") 125]))
  = Raise (CalledProcessError 125
             [py "docker"; py "run"; py "-d"; py "--name";
              py "minisweagent-01234567"; py "-w"; py "/tmp"; py "--rm";
              py "alpine"; py "sleep"; py "2h"]
             [] (py "pull access denied"))
  /\ is_RuntimeError
       (CalledProcessError 125
          [py "docker"; py "run"; py "-d"; py "--name";
           py "minisweagent-01234567"; py "-w"; py "/tmp"; py "--rm";
           py "alpine"; py "sleep"; py "2h"]
          [] (py "pull access denied")) = false.
Proof. split; by vm_compute. Qed.

Lemma start_raises_raw_attach_probe_wraps_witness :
  fst (_start_container host_child host_uuid (example_sys None [Expired]))
  = Raise (subprocess_error (start_call example_config (hex (example_host [])))
             Expired)
  /\ exists msg cause,
       fst (_attach_to_container host_child (py "c0ffee")
              (example_sys None [Exited [] (py "No such object") 1]))
       = Raise (RuntimeError msg cause)
       /\ msg = py "Container 'c0ffee' not found or docker error.".
Proof.
  split.
  - apply (proj1 (start_raises_raw_attach_probe_wraps host_child host_uuid
                    (example_sys None [Expired]))
                 (py "0123456789abcdef0123456789abcdef")
                 (example_host [Expired]) Expired (example_host [])).
    + reflexivity.
    + reflexivity.
    + exact I.
  - destruct (proj2 (start_raises_raw_attach_probe_wraps host_child host_uuid
                       (example_sys None
                          [Exited [] (py "No such object") 1]))
                    (py "c0ffee") (Exited [] (py "No such object") 1)
                    (example_host []))
      as (msg & cause & Hattach & Hmsg & _).
    + reflexivity.
    + simpl. lia.
    + exists msg, cause. split; [exact Hattach|].
      rewrite Hmsg. vm_compute. reflexivity.
Defined.

Lemma execute_unset_fails_fast_witness :
  execute host_child environ (py "pwd") [] None (example_sys None [])
  = (Raise (AssertionError (py "Container not started")), example_sys None [])
  /\ filter is_child_process
       (trace (snd (execute host_child environ (py "pwd") [] None
                      (example_sys None []))))
     = filter is_child_process (trace (example_sys None [])).
Proof.
  apply (execute_unset_fails_fast host_child environ (py "pwd") [] None
           (example_sys None [])).
  reflexivity.
Defined.

Lemma attach_failure_leaves_session_witness :
  exists msg cause σ',
    _attach_to_container host_child (py "c0ffee")
      (example_sys None [Exited (py "false" ++ [10%N]) [] 0])
    = (Raise (RuntimeError msg cause), σ')
    /\ msg = (if 0 =? 0
              then py "Container " ++ py "c0ffee"
                   ++ py " is not 'running'. Please start it first."
              else py "Container '" ++ py "c0ffee"
                   ++ py "' not found or docker error.")
    /\ self σ' = self (example_sys None [Exited (py "false" ++ [10%N]) [] 0])
    /\ container_id (self σ')
       = container_id
           (self (example_sys None [Exited (py "false" ++ [10%N]) [] 0])).
Proof.
  apply (attach_failure_leaves_session host_child
           (example_sys None [Exited (py "false" ++ [10%N]) [] 0])
           (py "c0ffee") (py "false" ++ [10%N]) [] 0 (example_host [])).
  - reflexivity.
  - right. vm_compute. discriminate.
Defined.

Lemma execute_env_injection_witness :
  exists c,
    trace (snd (execute host_child environ (py "env") [] None
                  (example_sys (Some (py "c0ffee")) [Exited [] [] 0])))
    = [EvRun c]
    /\ args c
       = [py "docker"; py "exec"; py "-w"; py "/tmp";
          py "-e"; py "TOKEN=from-host"; py "-e"; py "EMPTY=";
          py "-e"; py "LANG=C"; py "-e"; py "TOKEN=explicit";
          py "c0ffee"; py "bash"; py "-lc"; py "env"]
    /\ last_write_wins (injected_items example_config example_environ)
         (py "TOKEN") = Some (py "explicit").
Proof.
  destruct (execute_env_injection host_child environ (py "env") [] None
              (example_sys (Some (py "c0ffee")) [Exited [] [] 0])
              (py "c0ffee"))
    as (c & Htrace & Hargs & _ & Hlast).
  - split; [reflexivity|]. vm_compute. discriminate.
  - apply (bool_decide_unpack _). vm_compute. exact I.
  - exists c. split; [exact Htrace|]. split.
    + rewrite Hargs. vm_compute. reflexivity.
    + apply Hlast. apply list_elem_of_In. vm_compute. right. left. reflexivity.
Defined.

Lemma start_container_command_witness :
  filter is_child_process
    (trace (snd (_start_container host_child host_uuid
                   (example_sys None [Exited (py "c0ffee" ++ [10%N]) [] 0]))))
  = [EvRun {| args := [py "docker"; py "run"; py "-d"; py "--name";
                       py "minisweagent-01234567"; py "-w"; py "/tmp";
                       py "--rm"; py "alpine"; py "sleep"; py "2h"];
              run_timeout := 120;
              check := true;
              stderr_to_stdout := false |}]
  /\ fst (_start_container host_child host_uuid
            (example_sys None [Exited (py "c0ffee" ++ [10%N]) [] 0]))
     = Ok tt
  /\ container_id
       (self (snd (_start_container host_child host_uuid
                     (example_sys None [Exited (py "c0ffee" ++ [10%N]) [] 0]))))
     = Some (py "c0ffee").
Proof.
  destruct (start_container_command host_child host_uuid
              (example_sys None [Exited (py "c0ffee" ++ [10%N]) [] 0])
              (py "0123456789abcdef0123456789abcdef")
              (example_host [Exited (py "c0ffee" ++ [10%N]) [] 0]))
    as [Htrace Hok].
  - reflexivity.
  - destruct (Hok (py "c0ffee" ++ [10%N]) [] (example_host []))
      as [Hres Hid]; [reflexivity|].
    split; [|split].
    + rewrite Htrace. vm_compute. reflexivity.
    + exact Hres.
    + rewrite Hid. vm_compute. reflexivity.
Defined.

Lemma identifier_never_cleared_witness :
  is_Some
    (container_id
       (self (run_ops host_child host_uuid environ host_popen
                [OpExecute (py "sleep 100") [] (Some 1); OpCleanup;
                 OpAttach (py "gone"); OpStart; OpCleanup]
                (example_sys (Some (py "c0ffee"))
                   [Expired; Exited [] (py "No such object") 1; Expired])))).
Proof.
  apply (identifier_never_cleared host_child host_uuid environ host_popen
           [OpExecute (py "sleep 100") [] (Some 1); OpCleanup;
            OpAttach (py "gone"); OpStart; OpCleanup]
           (example_sys (Some (py "c0ffee"))
              [Expired; Exited [] (py "No such object") 1; Expired])).
  simpl. eexists. reflexivity.
Defined.

Lemma execute_falsy_arguments_fall_back_witness :
  exists c,
    trace (snd (execute host_child environ (py "pwd") (py "/work") (Some 0)
                  (example_sys (Some (py "c0ffee"))
                     [Exited (py "/work" ++ [10%N]) [] 0])))
    = [EvRun c]
    /\ take 4 (args c) = [py "docker"; py "exec"; py "-w"; py "/work"]
    /\ run_timeout c = 30.
Proof.
  destruct (proj2 (proj2 (proj2
              (execute_falsy_arguments_fall_back host_child environ (py "pwd")
                 (py "/work") (Some 5)
                 (example_sys (Some (py "c0ffee"))
                    [Exited (py "/work" ++ [10%N]) [] 0]))))
              (py "c0ffee"))
    as [_ Htrace].
  - split; [reflexivity|]. vm_compute. discriminate.
  - eexists. split; [exact Htrace|]. split; vm_compute; reflexivity.
Defined.

Lemma execute_forwards_empty_value_witness :
  exists c,
    trace (snd (execute host_child environ (py "env") [] None
                  (example_sys (Some (py "c0ffee")) [Exited [] [] 0])))
    = [EvRun c]
    /\ args c
       = [py "docker"; py "exec"; py "-w"; py "/tmp";
          py "-e"; py "TOKEN=from-host"; py "-e"; py "EMPTY=";
          py "-e"; py "LANG=C"; py "-e"; py "TOKEN=explicit";
          py "c0ffee"; py "bash"; py "-lc"; py "env"].
Proof.
  destruct (execute_forwards_empty_value host_child environ (py "env") [] None
              (example_sys (Some (py "c0ffee")) [Exited [] [] 0])
              (py "c0ffee"))
    as (c & Htrace & Hargs & _).
  - split; [reflexivity|]. vm_compute. discriminate.
  - exists c. split; [exact Htrace|]. rewrite Hargs. vm_compute. reflexivity.
Defined.

(** [cleanup] on a started session: the shell command it detaches. *)
Example cleanup_example :
  cleanup host_popen (example_sys (Some (py "c0ffee")) [])
  = (Ok tt,
     {| self := self (example_sys (Some (py "c0ffee")) []);
        world := example_host [];
        trace := [EvPopen (py "(timeout 60 docker stop c0ffee || docker rm -f c0ffee) >/dev/null 2>&1 &")] |}).
Proof. by vm_compute. Qed.

(** [__init__] with a [container_id] whose probe answers "false": the
    constructor raises and the identifier is unset. *)
Example init_attach_not_running :
  let cfg := {| image := py "alpine"; cwd := py "/"; env := [];
                forward_env := []; timeout := 30; executable := py "docker";
                run_args := [py "--rm"]; container_timeout := py "2h";
                pull_timeout := 120; cfg_container_id := Some (py "c0ffee") |} in
  let r := __init__ host_child host_uuid cfg
             (example_sys None [Exited (py "false" ++ [10%N]) [] 0]) in
  fst r = Raise (RuntimeError
                   (py "Container c0ffee is not 'running'. Please start it first.")
                   None)
  /\ container_id (self (snd r)) = None.
Proof. by vm_compute. Qed.

(** [__init__] with a running container: two probes, then the full
    identifier is stored. *)
Example init_attach_running :
  let cfg := {| image := py "alpine"; cwd := py "/"; env := [];
                forward_env := []; timeout := 30; executable := py "docker";
                run_args := [py "--rm"]; container_timeout := py "2h";
                pull_timeout := 120; cfg_container_id := Some (py "c0ff") |} in
  let r := __init__ host_child host_uuid cfg
             (example_sys None [Exited (py "true" ++ [10%N]) [] 0;
                                Exited (py "c0ffee0123 /box" ++ [10%N]) [] 0]) in
  fst r = Ok tt
  /\ container_id (self (snd r)) = Some (py "c0ffee0123")
  /\ filter is_run (trace (snd r))
     = [EvRun (check_running_call cfg (py "c0ff"));
        EvRun (get_info_call cfg (py "c0ff"))].
Proof. by vm_compute. Qed.

(** ** The further properties on concrete inputs *)

Lemma attach_stores_full_id_witness :
  fst (_attach_to_container host_child (py "c0ff")
         (example_sys None [Exited (py "true" ++ [10%N]) [] 0;
                            Exited (py "c0ffee0123 /box" ++ [10%N]) [] 0]))
  = Ok tt
  /\ container_id
       (self (snd (_attach_to_container host_child (py "c0ff")
                     (example_sys None
                        [Exited (py "true" ++ [10%N]) [] 0;
                         Exited (py "c0ffee0123 /box" ++ [10%N]) [] 0]))))
     = Some (py "c0ffee0123").
Proof.
  destruct (attach_stores_full_id host_child
              (example_sys None [Exited (py "true" ++ [10%N]) [] 0;
                                 Exited (py "c0ffee0123 /box" ++ [10%N]) [] 0])
              (py "c0ff") (py "true" ++ [10%N]) [] 
              (example_host [Exited (py "c0ffee0123 /box" ++ [10%N]) [] 0])
              (py "c0ffee0123 /box" ++ [10%N]) [] (example_host [])
              (py "c0ffee0123") (py "/box"))
    as (Hok & Hid & _).
  - reflexivity.
  - vm_compute. reflexivity.
  - reflexivity.
  - vm_compute. reflexivity.
  - split; [exact Hok|exact Hid].
Defined.

Lemma attach_second_probe_failure_is_raw_witness :
  fst (_attach_to_container host_child (py "c0ff")
         (example_sys None [Exited (py "true") [] 0; Expired]))
  = Raise (TimeoutExpired
             [py "docker"; py "inspect"; py "-f"; py "{{.Id}} {{.Name}}";
              py "c0ff"] 10).
Proof.
  destruct (attach_second_probe_failure_is_raw host_child
              (example_sys None [Exited (py "true") [] 0; Expired])
              (py "c0ff") (py "true") [] (example_host [Expired])
              Expired (example_host []))
    as (Hraise & _ & _).
  - reflexivity.
  - vm_compute. reflexivity.
  - reflexivity.
  - exact I.
  - exact Hraise.
Defined.

Lemma attach_wrong_token_count_witness :
  fst (_attach_to_container host_child (py "c0ff")
         (example_sys None [Exited (py "true") [] 0;
                            Exited (py "c0ffee0123") [] 0]))
  = Raise (UnpackError 2 (length (split (strip (py "c0ffee0123"))))).
Proof.
  destruct (attach_wrong_token_count host_child
              (example_sys None [Exited (py "true") [] 0;
                                 Exited (py "c0ffee0123") [] 0])
              (py "c0ff") (py "true") []
              (example_host [Exited (py "c0ffee0123") [] 0])
              (py "c0ffee0123") [] (example_host []))
    as (Hraise & _ & _).
  - reflexivity.
  - vm_compute. reflexivity.
  - reflexivity.
  - vm_compute. lia.
  - exact Hraise.
Defined.

Lemma attach_ok_then_execute_passes_witness :
  exists cid,
    container_id
      (self (snd (_attach_to_container host_child (py "c0ff")
                    (example_sys None
                       [Exited (py "true") [] 0;
                        Exited (py "c0ffee0123 /box") [] 0]))))
    = Some cid
    /\ is_token cid
    /\ forall command cwd_arg timeout_arg msg,
         fst (execute host_child environ command cwd_arg timeout_arg
                (snd (_attach_to_container host_child (py "c0ff")
                        (example_sys None
                           [Exited (py "true") [] 0;
                            Exited (py "c0ffee0123 /box") [] 0]))))
         <> Raise (AssertionError msg).
Proof.
  apply (attach_ok_then_execute_passes host_child environ
           (example_sys None [Exited (py "true") [] 0;
                              Exited (py "c0ffee0123 /box") [] 0])
           (py "c0ff")).
  vm_compute. reflexivity.
Defined.

Lemma start_blank_output_witness :
  fst (_start_container host_child host_uuid
         (example_sys None [Exited [32; 10]%N [] 0]))
  = Ok tt
  /\ container_id
       (self (snd (_start_container host_child host_uuid
                     (example_sys None [Exited [32; 10]%N [] 0]))))
     = Some [].
Proof.
  destruct (start_blank_output host_child host_uuid environ host_popen
              (example_sys None [Exited [32; 10]%N [] 0])
              (py "0123456789abcdef0123456789abcdef")
              (example_host [Exited [32; 10]%N [] 0])
              [32; 10]%N [] (example_host []))
    as (Hok & Hid & _).
  - reflexivity.
  - reflexivity.
  - vm_compute. reflexivity.
  - split; [exact Hok|exact Hid].
Defined.

Lemma start_ok_identifier_is_stripped_witness :
  exists cid,
    container_id
      (self (snd (_start_container host_child host_uuid
                    (example_sys None
                       [Exited ([32%N] ++ py "c0ffee" ++ [13; 10]%N) [] 0]))))
    = Some cid
    /\ strip cid = cid
    /\ no_lead isspace cid
    /\ no_lead isspace (rev cid).
Proof.
  apply (start_ok_identifier_is_stripped host_child host_uuid
           (example_sys None
              [Exited ([32%N] ++ py "c0ffee" ++ [13; 10]%N) [] 0])).
  vm_compute. reflexivity.
Defined.

Lemma execute_given_arguments_are_used_witness :
  exists c,
    trace (snd (execute host_child environ (py "pwd") (py "/work") (Some (-5))
                  (example_sys (Some (py "c0ffee")) [Expired])))
    = [EvRun c]
    /\ take 4 (args c) = [py "docker"; py "exec"; py "-w"; py "/work"]
    /\ run_timeout c = -5.
Proof.
  eexists. split.
  - apply (execute_given_arguments_are_used host_child environ (py "pwd")
             (py "/work") (-5) (example_sys (Some (py "c0ffee")) [Expired])
             (py "c0ffee")).
    + split; [reflexivity|]. vm_compute. discriminate.
    + vm_compute. discriminate.
    + lia.
  - split; reflexivity.
Defined.

Lemma execute_reads_only_forwarded_names_witness :
  exists c,
    trace (snd (execute host_child environ (py "env") [] None
                  (example_sys (Some (py "c0ffee")) [Exited [] [] 0])))
    = [EvRun c]
    /\ trace (snd (execute host_child environ (py "env") [] None
                     (example_sys_with_secret (Some (py "c0ffee"))
                        [Exited [] [] 0])))
       = [EvRun c].
Proof.
  apply (execute_reads_only_forwarded_names host_child environ (py "env") []
           None (example_sys (Some (py "c0ffee")) [Exited [] [] 0])
           (example_sys_with_secret (Some (py "c0ffee")) [Exited [] [] 0])
           (py "c0ffee")).
  - reflexivity.
  - split; [reflexivity|]. vm_compute. discriminate.
  - intros k Hk. apply list_elem_of_In in Hk. simpl in Hk.
    destruct Hk as [<-|[<-|[<-|[]]]]; vm_compute; reflexivity.
Defined.

Lemma execute_timeout_and_launch_failure_propagate_witness :
  fst (execute host_child environ (py "sleep 100") [] (Some 1)
         (example_sys (Some (py "c0ffee")) [Expired]))
  = Raise (TimeoutExpired
             [py "docker"; py "exec"; py "-w"; py "/tmp";
              py "-e"; py "TOKEN=from-host"; py "-e"; py "EMPTY=";
              py "-e"; py "LANG=C"; py "-e"; py "TOKEN=explicit";
              py "c0ffee"; py "bash"; py "-lc"; py "sleep 100"] 1).
Proof.
  destruct (execute_timeout_and_launch_failure_propagate host_child environ
              (py "sleep 100") [] (Some 1)
              (example_sys (Some (py "c0ffee")) [Expired]) (py "c0ffee"))
    as (_ & Htimeout & _).
  - split; [reflexivity|]. vm_compute. discriminate.
  - rewrite (Htimeout (example_host [])); [|reflexivity].
    vm_compute. reflexivity.
Defined.

Lemma init_attach_mode_only_inspects_witness :
  filter is_child_process
    (trace (snd (__init__ host_child host_uuid example_attach_config
                   (example_sys None [Exited (py "false") [] 0]))))
  = [EvRun (check_running_call example_attach_config (py "c0ff"))]
  \/ filter is_child_process
       (trace (snd (__init__ host_child host_uuid example_attach_config
                      (example_sys None [Exited (py "false") [] 0]))))
     = [EvRun (check_running_call example_attach_config (py "c0ff"));
        EvRun (get_info_call example_attach_config (py "c0ff"))].
Proof.
  apply (init_attach_mode_only_inspects host_child host_uuid
           example_attach_config (py "c0ff")
           (example_sys None [Exited (py "false") [] 0])).
  reflexivity.
Defined.

Lemma every_run_uses_the_executable_witness :
  runs_only (py "docker")
    (trace (run_ops host_child host_uuid environ host_popen
              [OpStart; OpExecute (py "ls") [] None; OpAttach (py "c0ff");
               OpCleanup]
              (example_sys None
                 [Exited (py "c0ffee") [] 0; Exited (py "bin") [] 0;
                  Exited (py "false") [] 0]))).
Proof.
  apply (every_run_uses_the_executable host_child host_uuid environ host_popen
           [OpStart; OpExecute (py "ls") [] None; OpAttach (py "c0ff");
            OpCleanup]
           (example_sys None
              [Exited (py "c0ffee") [] 0; Exited (py "bin") [] 0;
               Exited (py "false") [] 0])).
  constructor.
Defined.

Lemma each_cleanup_detaches_again_witness :
  count_popen
    (trace (run_ops host_child host_uuid environ host_popen
              [OpCleanup; OpExecute (py "ls") [] None; OpCleanup]
              (example_sys (Some (py "c0ffee")) [Exited [] [] 0])))
  = 2%nat.
Proof.
  apply (each_cleanup_detaches_again host_child host_uuid environ host_popen
           [OpCleanup; OpExecute (py "ls") [] None; OpCleanup]
           (example_sys (Some (py "c0ffee")) [Exited [] [] 0])).
  simpl. eexists. reflexivity.
Defined.

Lemma failed_setup_leaves_session_witness :
  self (snd (_start_container host_child host_uuid
               (example_sys None [Expired])))
  = self (example_sys None [Expired])
  /\ self (snd (_attach_to_container host_child (py "c0ff")
                  (example_sys None [Exited (py "true") [] 0;
                                     Exited (py "c0ffee0123") [] 0])))
     = self (example_sys None [Exited (py "true") [] 0;
                               Exited (py "c0ffee0123") [] 0]).
Proof.
  split.
  - apply (proj1 (failed_setup_leaves_session host_child host_uuid
                    (example_sys None [Expired]))
                 (TimeoutExpired
                    [py "docker"; py "run"; py "-d"; py "--name";
                     py "minisweagent-01234567"; py "-w"; py "/tmp";
                     py "--rm"; py "alpine"; py "sleep"; py "2h"] 120)).
    vm_compute. reflexivity.
  - apply (proj2 (failed_setup_leaves_session host_child host_uuid
                    (example_sys None [Exited (py "true") [] 0;
                                       Exited (py "c0ffee0123") [] 0]))
                 (py "c0ff") (UnpackError 2 1)).
    vm_compute. reflexivity.
Defined.

(** C8, the claim as stated, on a host that cannot start another
    process: [Popen] raises, and so does [cleanup], at the first call and
    at the second. *)
Lemma cleanup_raises_when_popen_raises :
  fst (cleanup host_popen_exhausted (example_sys (Some (py "c0ffee")) []))
  = Raise (OSError (py "[Errno 11] Resource temporarily unavailable"))
  /\ fst (cleanup host_popen_exhausted
            (snd (cleanup host_popen_exhausted
                    (example_sys (Some (py "c0ffee")) []))))
     = Raise (OSError (py "[Errno 11] Resource temporarily unavailable")).
Proof. split; by vm_compute. Qed.

Lemma cleanup_returns_unless_popen_raises_witness :
  cleanup host_popen (example_sys None []) = (Ok tt, example_sys None [])
  /\ fst (cleanup host_popen
            (run_ops host_child host_uuid environ host_popen
               (replicate 2 OpCleanup)
               (example_sys (Some (py "c0ffee")) [])))
     = Ok tt.
Proof.
  split.
  - apply (proj1 (cleanup_returns_unless_popen_raises host_child host_uuid
                    environ host_popen (example_sys None []) 0)).
    reflexivity.
  - destruct (proj2 (proj2 (cleanup_returns_unless_popen_raises host_child
                              host_uuid environ host_popen
                              (example_sys (Some (py "c0ffee")) []) 2)))
      as (_ & _ & Hret).
    apply Hret. intros cmd w. reflexivity.
Defined.

Lemma init_outcome_decides_del_witness :
  let σ' := snd (__init__ host_child host_uuid example_config
                   (example_sys None [Exited (py "c0ffee" ++ [10%N]) [] 0])) in
  exists cid,
    container_id (self σ') = Some cid
    /\ __del__ host_popen σ'
       = (Ok tt,
          {| self := self σ'; world := world σ';
             trace := trace σ'
                      ++ [EvPopen (cleanup_cmd (executable example_config)
                                               cid)] |}).
Proof.
  cbv zeta.
  pose proof (init_outcome_decides_del host_child host_uuid host_popen
                example_config
                (example_sys None [Exited (py "c0ffee" ++ [10%N]) [] 0]))
    as H.
  cbv zeta in H. destruct H as [_ H].
  assert (E : fst (__init__ host_child host_uuid example_config
                     (example_sys None
                        [Exited (py "c0ffee" ++ [10%N]) [] 0]))
              = Ok tt) by (vm_compute; reflexivity).
  rewrite E in H. destruct H as (cid & Hid & _ & _ & Hret).
  exists cid. split; [exact Hid|]. apply Hret. reflexivity.
Defined.
